(** * x402 Vara facilitator: the verify and settle route handlers

    A shallow embedding of the two Next.js route handlers
    ([POST /api/facilitator/verify] and [POST /api/facilitator/settle])
    together with the fragment of JavaScript they rely on: JSON values,
    property reads that raise on [null]/[undefined], truthiness, strict
    equality, template literals and their string conversion, and
    [BigInt].

    The collaborators imported from [x402-vara] and from the runtime
    ([useApi], [balanceOf], [verifyWithApi], [settleWithApi],
    [Buffer.from(..,'base64')], [JSON.parse]) are fields of a [Platform]
    record; every call to one of them is recorded in a trace so that
    "the delegate is not called" is a statement about the handler. *)

From Stdlib Require Import ZArith List String Ascii Bool Lia.
From Stdlib Require Import DecimalString DecimalZ.
Import ListNotations.
Local Open Scope string_scope.
Local Open Scope Z_scope.

(* ================================================================== *)
(** ** The JavaScript fragment *)
(* ================================================================== *)

Module JS.

(** Values that [request.json()] and [JSON.parse] can produce, plus
    [undefined] for a property that is not there. A number that is a
    finite integer is [VNum n], with [n] the integer itself (so [n] is
    one that a double holds, see [is_double]); any other number, one
    with a fraction or an infinite one, is [VReal text], carried by the
    text [ToString] gives it, which is all the handlers ever ask of it.
    A [VNum n] whose [n] no double holds is the value of no number; the
    conversions below read it as the double nearest to [n].
    Strings are sequences of 8-bit code units. *)
#[warnings="-register-all"] Inductive value : Type :=
| VUndefined
| VNull
| VBool (b : bool)
| VNum (n : Z)
| VStr (s : string)
| VArr (xs : list value)
| VObj (fields : list (string * value))
| VReal (text : string).

(** A thrown [Error] instance: [error.name] and [error.message]. *)
Record Error : Type := mkError { name : string; message : string }.

Definition TypeError (m : string) : Error := mkError "TypeError" m.
Definition SyntaxError (m : string) : Error := mkError "SyntaxError" m.
Definition RangeError (m : string) : Error := mkError "RangeError" m.

(** [Error.prototype.toString] *)
Definition Error_toString (e : Error) : string :=
  if String.eqb (name e) EmptyString then message e
  else if String.eqb (message e) EmptyString then name e
  else name e ++ ": " ++ message e.

(** Exact decimal rendering of an integer ([BigInt.prototype.toString]). *)
Definition dec (z : Z) : string := NilZero.string_of_int (Z.to_int z).

Definition join (sep : string) (l : list string) : string := String.concat sep l.

(** *** Numbers *)

(** The double nearest to a non-negative integer, ties to even; [None]
    when it lies beyond the finite doubles. *)
Definition round_double (z : Z) : option Z :=
  if z <? 2 ^ 53 then Some z
  else
    let shift := Z.log2 z - 52 in
    let q := Z.shiftr z shift in
    let r := z - Z.shiftl q shift in
    let half := Z.shiftl 1 (shift - 1) in
    let q' := if (half <? r) || ((r =? half) && Z.odd q) then q + 1 else q in
    let d := Z.shiftl q' shift in
    if d <? 2 ^ 1024 then Some d else None.

(** Is the integer one that a double holds? *)
Definition is_double (n : Z) : bool :=
  match round_double (Z.abs n) with
  | Some d => d =? Z.abs n
  | None => false
  end.

(** The decimal with the fewest significant digits that still rounds to
    the double [x]: digits are tried from [k] up, and of the two
    [k]-digit neighbours of [x] the nearer one that rounds to [x] wins.
    [nd] is the number of digits of [x]. *)
Fixpoint shortest (x nd k : Z) (fuel : nat) : Z :=
  match fuel with
  | O => x
  | S fuel' =>
      let unit := 10 ^ (nd - k) in
      let lo := (x / unit) * unit in
      let hi := lo + unit in
      let ok v := match round_double v with Some d => d =? x | None => false end in
      if ok lo && ok hi then (if x - lo <=? hi - x then lo else hi)
      else if ok lo then lo
      else if ok hi then hi
      else shortest x nd (k + 1) fuel'
  end.

Fixpoint strip_zeros (digits : list ascii) : list ascii :=
  match digits with
  | "0"%char :: r => strip_zeros r
  | _ => digits
  end.

(** The significant digits of a positive integer: its decimal without
    the trailing zeros. *)
Definition significant (v : Z) : string :=
  string_of_list_ascii
    (List.rev (strip_zeros (List.rev (list_ascii_of_string (dec v))))).

(** [Number::toString] on a positive integer double. *)
Definition positive_toString (x : Z) : string :=
  if x <? 2 ^ 53 then dec x
  else
    let nd := Z.of_nat (String.length (dec x)) in
    let v := shortest x nd 1 (Z.to_nat nd) in
    let n := Z.of_nat (String.length (dec v)) in
    if n <=? 21 then dec v
    else
      match significant v with
      | String d EmptyString => String d ("e+" ++ dec (n - 1))
      | String d rest => String d ("." ++ rest ++ "e+" ++ dec (n - 1))
      | EmptyString => dec v
      end.

(** [Number::toString] on the number the integer [n] stands for. *)
Definition Number_toString (n : Z) : string :=
  match round_double (Z.abs n) with
  | None => if n <? 0 then "-Infinity" else "Infinity"
  | Some x =>
      if x =? 0 then "0"
      else if n <? 0 then "-" ++ positive_toString x
      else positive_toString x
  end.

(** *** Conversion to a string *)

Definition has_key (k : string) (fs : list (string * value)) : bool :=
  existsb (fun kv => String.eqb (fst kv) k) fs.

(** [ToString], as a template literal applies it. An object made by a
    JSON parse has no callable [toString] of its own: when it has an
    own [toString] key the inherited method is hidden and the
    conversion raises; otherwise [Object.prototype.toString] answers.
    An array joins the conversions of its elements. *)
Fixpoint to_string (v : value) : Error + string :=
  match v with
  | VUndefined => inr "undefined"
  | VNull => inr "null"
  | VBool true => inr "true"
  | VBool false => inr "false"
  | VNum n => inr (Number_toString n)
  | VReal text => inr text
  | VStr s => inr s
  | VArr xs =>
      match
        (fix elems (l : list value) : Error + list string :=
           match l with
           | [] => inr []
           | x :: r =>
               match
                 match x with
                 | VUndefined | VNull => inr EmptyString
                 | _ => to_string x
                 end
               with
               | inl e => inl e
               | inr s =>
                   match elems r with
                   | inl e => inl e
                   | inr ss => inr (s :: ss)
                   end
               end
           end) xs
      with
      | inl e => inl e
      | inr ss => inr (join "," ss)
      end
  | VObj fs =>
      if has_key "toString" fs
      then inl (TypeError "Cannot convert object to primitive value")
      else inr "[object Object]"
  end.

(** A template literal: its quoted pieces and its substitutions, which
    are converted from left to right. *)
Inductive piece : Type :=
| Lit (s : string)
| Sub (v : value).

Definition piece_text (p : piece) : Error + string :=
  match p with
  | Lit s => inr s
  | Sub v => to_string v
  end.

Fixpoint template (pieces : list piece) : Error + string :=
  match pieces with
  | [] => inr EmptyString
  | [p] => piece_text p
  | p :: r =>
      match piece_text p with
      | inl e => inl e
      | inr s =>
          match template r with
          | inl e => inl e
          | inr t => inr (s ++ t)
          end
      end
  end.

(** [ToBoolean] *)
Definition truthy (v : value) : bool :=
  match v with
  | VUndefined | VNull => false
  | VBool b => b
  | VNum n => negb (n =? 0)
  | VStr s => negb (String.eqb s EmptyString)
  | VArr _ | VObj _ | VReal _ => true
  end.

(** [a === b]. The objects and arrays compared in the handlers come from
    two separate parses, so they are never the same reference; two
    numbers that are not integers are equal when their texts are. *)
Definition strict_eq (a b : value) : bool :=
  match a, b with
  | VUndefined, VUndefined => true
  | VNull, VNull => true
  | VBool x, VBool y => Bool.eqb x y
  | VNum x, VNum y => x =? y
  | VStr x, VStr y => String.eqb x y
  | VReal x, VReal y => String.eqb x y
  | _, _ => false
  end.

(** [arr.includes(v)] for an array of strings. *)
Definition includes (arr : list string) (v : value) : bool :=
  match v with
  | VStr s => existsb (String.eqb s) arr
  | _ => false
  end.

(** [str.includes(needle)] *)
Fixpoint str_includes (needle s : string) : bool :=
  String.prefix needle s
  || match s with
     | EmptyString => false
     | String _ r => str_includes needle r
     end.

Fixpoint lookup (k : string) (fs : list (string * value)) : value :=
  match fs with
  | [] => VUndefined
  | (k', v) :: r => if String.eqb k k' then v else lookup k r
  end.

Definition nullish (v : value) : bool :=
  match v with
  | VUndefined | VNull => true
  | _ => false
  end.

(** What [o.k] reads on a value that is neither [null] nor [undefined],
    for the keys the handlers read (none of them is a prototype member
    except [length]). *)
Definition prop (o : value) (k : string) : value :=
  match o with
  | VObj fs => lookup k fs
  | VStr s =>
      if String.eqb k "length" then VNum (Z.of_nat (String.length s))
      else VUndefined
  | VArr xs =>
      if String.eqb k "length" then VNum (Z.of_nat (List.length xs))
      else VUndefined
  | _ => VUndefined
  end.

Definition nullish_text (o : value) : string :=
  match o with
  | VNull => "null"
  | _ => "undefined"
  end.

(** The [TypeError] of reading [k] on [null] or [undefined]. The wording
    is the engine's own; this is V8's. *)
Definition read_fault (o : value) (k : string) : Error :=
  TypeError ("Cannot read properties of " ++ nullish_text o
             ++ " (reading '" ++ k ++ "')").

(** [o.k]: a read on [null] or [undefined] raises. *)
Definition get (o : value) (k : string) : Error + value :=
  if nullish o then inl (read_fault o k) else inr (prop o k).

(** [const { k } = o] for an [o] named [what] in the source: it raises
    on [null] and [undefined], worded as V8 words it. *)
Definition destructure (what : string) (o : value) (k : string) : Error + value :=
  if nullish o
  then inl (TypeError ("Cannot destructure property '" ++ k ++ "' of '" ++ what
                       ++ "' as it is " ++ nullish_text o ++ "."))
  else inr (prop o k).

(** [v.substring(..)] is only callable on a string. *)
Definition substring_receiver (what : string) (v : value) : Error + string :=
  match v with
  | VStr s => inr s
  | VUndefined | VNull => inl (read_fault v "substring")
  | _ => inl (TypeError (what ++ ".substring is not a function"))
  end.

(** *** [BigInt(v)] *)

Definition is_space (c : ascii) : bool :=
  match nat_of_ascii c with
  | 9 | 10 | 11 | 12 | 13 | 32 | 160 => true
  | _ => false
  end%nat.

Fixpoint trim_start (s : string) : string :=
  match s with
  | EmptyString => EmptyString
  | String c r => if is_space c then trim_start r else s
  end.

Definition str_rev (s : string) : string :=
  string_of_list_ascii (List.rev (list_ascii_of_string s)).

Definition trim (s : string) : string :=
  str_rev (trim_start (str_rev (trim_start s))).

Definition digit_of (c : ascii) : option Z :=
  let n := Z.of_nat (nat_of_ascii c) in
  if (48 <=? n) && (n <=? 57) then Some (n - 48)
  else if (97 <=? n) && (n <=? 102) then Some (n - 87)
  else if (65 <=? n) && (n <=? 70) then Some (n - 55)
  else None.

Fixpoint digits (radix acc : Z) (s : string) : option Z :=
  match s with
  | EmptyString => Some acc
  | String c r =>
      match digit_of c with
      | Some d => if d <? radix then digits radix (acc * radix + d) r else None
      | None => None
      end
  end.

(** One or more digits of the given radix. *)
Definition numeral (radix : Z) (s : string) : option Z :=
  match s with
  | EmptyString => None
  | _ => digits radix 0 s
  end.

(** [DecimalDigits] *)
Definition decimal (s : string) : option Z :=
  option_map Z.of_uint (NilZero.uint_of_string s).

Definition radix_of_prefix (c : ascii) : option Z :=
  if Ascii.eqb c "x" || Ascii.eqb c "X" then Some 16
  else if Ascii.eqb c "o" || Ascii.eqb c "O" then Some 8
  else if Ascii.eqb c "b" || Ascii.eqb c "B" then Some 2
  else None.

(** A [0x], [0o] or [0b] prefix: its radix and what follows it. *)
Definition prefixed (s : string) : option (Z * string) :=
  match s with
  | String z (String p r) =>
      if Ascii.eqb z "0"
      then option_map (fun radix => (radix, r)) (radix_of_prefix p)
      else None
  | _ => None
  end.

(** [StrIntegerLiteral]: an unsigned literal with a radix prefix, or a
    signed decimal. *)
Definition StrIntegerLiteral (s : string) : option Z :=
  match prefixed s with
  | Some (radix, r) => numeral radix r
  | None =>
      match s with
      | String c r =>
          if Ascii.eqb c "+" then decimal r
          else if Ascii.eqb c "-" then option_map Z.opp (decimal r)
          else decimal s
      | EmptyString => decimal s
      end
  end.

(** [StringToBigInt]: white space is trimmed, the empty string is [0n]. *)
Definition StringToBigInt (s : string) : option Z :=
  match trim s with
  | EmptyString => Some 0
  | t => StrIntegerLiteral t
  end.

(** [BigInt(v)]: a number must be a finite integer; a string, an array
    or an object is converted to a string first and read as a literal. *)
Definition BigInt (v : value) : Error + Z :=
  match v with
  | VUndefined => inl (TypeError "Cannot convert undefined to a BigInt")
  | VNull => inl (TypeError "Cannot convert null to a BigInt")
  | VBool b => inr (if b then 1 else 0)
  | VNum n =>
      match round_double (Z.abs n) with
      | Some x => inr (if n <? 0 then - x else x)
      | None =>
          inl (RangeError ("The number " ++ Number_toString n
                           ++ " cannot be converted to a BigInt because it is not an integer"))
      end
  | VReal text =>
      inl (RangeError ("The number " ++ text
                       ++ " cannot be converted to a BigInt because it is not an integer"))
  | VStr _ | VArr _ | VObj _ =>
      match to_string v with
      | inl e => inl e
      | inr s =>
          match StringToBigInt s with
          | Some z => inr z
          | None => inl (SyntaxError ("Cannot convert " ++ s ++ " to a BigInt"))
          end
      end
  end.

(** The characters [dec] writes: decimal digits and the minus sign. *)
Definition is_numeral_char (c : ascii) : bool :=
  let n := Z.of_nat (nat_of_ascii c) in
  ((48 <=? n) && (n <=? 57)) || Ascii.eqb c "-".

(** [a || b] on strings, as in [error.message || String(error)]. *)
Definition str_or (a b : string) : string :=
  if String.eqb a EmptyString then b else a.

End JS.

Import JS.
(* ================================================================== *)
(** ** Collaborators and HTTP responses *)
(* ================================================================== *)

(** What [verifyWithApi(api)(payload)] resolves to. *)
Record VerifyResult : Type :=
  { vr_isValid : bool; vr_invalidReason : value }.

(** What [settleWithApi(api)(payload, options)] resolves to. *)
Record SettleResult : Type :=
  { sr_success : bool; sr_txHash : value; sr_message : value }.

Record SettleOptions : Type := { waitForFinalization : bool }.

(** The constants and functions the handlers import. A collaborator
    that rejects or throws returns [inl]. *)
Record Platform : Type :=
  { api : Type;
    X402_VERSION : Z;
    X402_SCHEME : string;
    validVaraNetworks : list string;
    useApi : value -> Error + api;
    balanceOf : api -> value -> value -> Error + Z;
    verifyWithApi : api -> value -> Error + VerifyResult;
    settleWithApi : api -> value -> SettleOptions -> Error + SettleResult;
    (** [Buffer.from(s, 'base64').toString('utf-8')]: characters that
        are not base64 are skipped, so a malformed header does not make
        it raise *)
    base64_utf8 : string -> Error + string;
    JSON_parse : string -> Error + value }.

(** Calls that leave the handler, in the order they are made. *)
Inductive event (A : Type) : Type :=
| EvUseApi (network : value)
| EvBase64 (header : string)
| EvJsonParse (text : string)
| EvBalanceOf (a : A) (address asset : value)
| EvVerifyWithApi (a : A) (payload : value)
| EvSettleWithApi (a : A) (payload : value) (options : SettleOptions).

Arguments EvUseApi {A}.
Arguments EvBase64 {A}.
Arguments EvJsonParse {A}.
Arguments EvBalanceOf {A}.
Arguments EvVerifyWithApi {A}.
Arguments EvSettleWithApi {A}.

(** [NextResponse.json(body, {status})] with the headers the handler
    sets itself. *)
Record NextResponse (B : Type) : Type :=
  { status : Z; json_body : B; headers : list (string * string) }.

Arguments status {B}.
Arguments json_body {B}.
Arguments headers {B}.

Definition NextResponse_json {B : Type} (b : B) (st : Z) : NextResponse B :=
  {| status := st; json_body := b; headers := [] |}.

Definition headers_set {B : Type} (r : NextResponse B) (k v : string)
  : NextResponse B :=
  {| status := status r; json_body := json_body r;
     headers := (k, v) :: filter (fun kv => negb (String.eqb (fst kv) k)) (headers r) |}.

(* ================================================================== *)
(** ** Control flow of an async handler body *)
(* ================================================================== *)

Module Flow.

(** A statement either falls through with a value, returns a response
    from the handler, or throws. *)
Inductive step (R A : Type) : Type :=
| Next (a : A)
| Return (r : R)
| Throw (e : Error).

Arguments Next {R A}.
Arguments Return {R A}.
Arguments Throw {R A}.

Definition M (E R A : Type) : Type := (list E * step R A)%type.

Definition pure {E R A} (a : A) : M E R A := ([], Next a).

Definition bind {E R A B} (m : M E R A) (k : A -> M E R B) : M E R B :=
  match m with
  | (t, Next a) => let (t', s) := k a in ((t ++ t')%list, s)
  | (t, Return r) => (t, Return r)
  | (t, Throw e) => (t, Throw e)
  end.

(** [return r;] *)
Definition reply {E R A} (r : R) : M E R A := ([], Return r).

(** An expression that may throw. *)
Definition eval {E R A} (x : Error + A) : M E R A :=
  match x with
  | inl e => ([], Throw e)
  | inr a => ([], Next a)
  end.

(** A call to a collaborator: logged, then its outcome. *)
Definition call {E R A} (ev : E) (x : Error + A) : M E R A :=
  match x with
  | inl e => ([ev], Throw e)
  | inr a => ([ev], Next a)
  end.

(** A logged call followed by the rest of the body. *)
Definition emit {E R A} (ev : E) (m : M E R A) : M E R A :=
  (ev :: fst m, snd m).

(** [if (c) { return r; }] *)
Definition return_if {E R} (c : bool) (r : R) : M E R unit :=
  if c then reply r else pure tt.

(** [return mk(`...`);] where the template literal may throw. *)
Definition reply_with {E R A} (msg : Error + string) (mk : string -> R)
  : M E R A :=
  match msg with
  | inl e => ([], Throw e)
  | inr s => ([], Return (mk s))
  end.

(** [if (c) { console.error(`...`); return mk(`...`); }]: the same
    template is converted for the log and for the response. *)
Definition reject_if {E R} (c : bool) (msg : Error + string) (mk : string -> R)
  : M E R unit :=
  if c then reply_with msg mk else pure tt.

(** [try { m } catch (e) { h e }] *)
Definition try_catch {E R A} (m : M E R A) (h : Error -> M E R A) : M E R A :=
  match m with
  | (t, Throw e) => let (t', s) := h e in ((t ++ t')%list, s)
  | other => other
  end.

(** The whole handler: its [try] body always ends in a [return]. *)
Definition run {E R} (m : M E R R) (h : Error -> R) : list E * R :=
  match m with
  | (t, Next r) => (t, r)
  | (t, Return r) => (t, r)
  | (t, Throw e) => (t, h e)
  end.

End Flow.

Import Flow.

Declare Scope flow_scope.
Delimit Scope flow_scope with flow.
Notation "x <- m ;; k" := (bind m (fun x => k))
  (at level 61, m at next level, right associativity) : flow_scope.
Notation "m ;; k" := (bind m (fun _ => k))
  (at level 61, right associativity) : flow_scope.
Local Open Scope flow_scope.

(* ================================================================== *)
(** ** POST /api/facilitator/verify *)
(* ================================================================== *)

Module Verify.

(** [VerifyResponse] *)
Record VerifyResponse : Type :=
  { isValid : bool; invalidReason : value }.

Definition Response : Type := NextResponse VerifyResponse.

(** A [200] response carrying [{isValid: false, invalidReason}]. *)
Definition rejected (reason : string) : Response :=
  NextResponse_json {| isValid := false; invalidReason := VStr reason |} 200.

(** The [try] body of the handler. [request_json] is what
    [await request.json()] produced; [startTime] and [now] are the two
    readings of [Date.now()], integers of at most sixteen digits, whose
    difference [toString] writes as the exact decimal. Arguments of
    [console.log] are evaluated for the faults they can raise; the
    printing itself is dropped. The template literals left out are
    those whose substitution is always a string or a number and so
    cannot raise: the request path, the network once it passed the
    network gate (it is then one of the strings of
    [validVaraNetworks]) and the duration. *)
Definition POST_try (P : Platform) (request_json : Error + value)
    (startTime now : Z) : M (event (api P)) Response Response :=
  body <- eval request_json ;;
  x402Version <- eval (destructure "body" body "x402Version") ;;
  paymentHeader <- eval (destructure "body" body "paymentHeader") ;;
  paymentRequirements <- eval (destructure "body" body "paymentRequirements") ;;
  (* console.log(`Request body:`, {...}) *)
  eval (get paymentRequirements "scheme") ;;
  eval (get paymentRequirements "network") ;;
  eval (get paymentRequirements "maxAmountRequired") ;;
  eval (get paymentRequirements "payTo") ;;
  eval (get paymentRequirements "asset") ;;
  (* Validate x402 version *)
  reject_if (negb (strict_eq x402Version (VNum (X402_VERSION P))))
    (template [Lit "Unsupported x402 version: "; Sub x402Version]) rejected ;;
  (* Validate required fields *)
  return_if (negb (truthy paymentHeader) || negb (truthy paymentRequirements))
    (NextResponse_json
       {| isValid := false;
          invalidReason := VStr "Missing paymentHeader or paymentRequirements" |}
       400) ;;
  (* Validate scheme *)
  req_scheme <- eval (get paymentRequirements "scheme") ;;
  reject_if (negb (strict_eq req_scheme (VStr (X402_SCHEME P))))
    (template [Lit "Unsupported scheme: "; Sub req_scheme]) rejected ;;
  (* Validate network is Vara-specific *)
  network <- eval (get paymentRequirements "network") ;;
  reject_if (negb (truthy network) || negb (includes (validVaraNetworks P) network))
    (template [Lit "Invalid Vara network: "; Sub network;
               Lit ". Expected one of ";
               Sub (VArr (map VStr (validVaraNetworks P)))]) rejected ;;
  api <- call (EvUseApi network) (useApi P network) ;;
  (* Parse the payment header (base64 encoded PaymentPayload) *)
  header <- eval (substring_receiver "paymentHeader" paymentHeader) ;;
  paymentPayloadJson <-
    try_catch (call (EvBase64 header) (base64_utf8 P header))
      (fun decodeError =>
         reply (rejected "Invalid base64 encoding in X-PAYMENT header")) ;;
  paymentPayload <-
    try_catch (call (EvJsonParse paymentPayloadJson) (JSON_parse P paymentPayloadJson))
      (fun parseError => reply (rejected "Invalid JSON in payment payload")) ;;
  (* console.log(`Parsed payment payload:`, {...}) *)
  eval (get paymentPayload "x402Version") ;;
  eval (get paymentPayload "scheme") ;;
  eval (get paymentPayload "asset") ;;
  eval (get paymentPayload "network") ;;
  eval (get paymentPayload "payload") ;;
  (* Validate payment payload matches requirements *)
  pay_scheme <- eval (get paymentPayload "scheme") ;;
  req_scheme <- eval (get paymentRequirements "scheme") ;;
  reject_if (negb (strict_eq pay_scheme req_scheme))
    (template [Lit "Scheme mismatch: expected "; Sub req_scheme;
               Lit ", got "; Sub pay_scheme]) rejected ;;
  pay_network <- eval (get paymentPayload "network") ;;
  req_network <- eval (get paymentRequirements "network") ;;
  reject_if (negb (strict_eq pay_network req_network))
    (template [Lit "Network mismatch: expected "; Sub req_network;
               Lit ", got "; Sub pay_network]) rejected ;;
  pay_asset <- eval (get paymentPayload "asset") ;;
  req_asset <- eval (get paymentRequirements "asset") ;;
  reject_if (negb (strict_eq pay_asset req_asset))
    (template [Lit "Asset mismatch: expected "; Sub req_asset;
               Lit ", got "; Sub pay_asset]) rejected ;;
  maxAmountRequired <- eval (get paymentRequirements "maxAmountRequired") ;;
  amount <- eval (BigInt maxAmountRequired) ;;
  payload <- eval (get paymentPayload "payload") ;;
  tx <- eval (get payload "transaction") ;;
  address <- eval (get tx "address") ;;
  asset <- eval (get paymentPayload "asset") ;;
  balance <- call (EvBalanceOf api address asset) (balanceOf P api address asset) ;;
  return_if (balance <? amount)
    (rejected ("Insufficient asset balance: expected " ++ dec amount
               ++ ", got " ++ dec balance)) ;;
  payload <- eval (get paymentPayload "payload") ;;
  signature <- eval (get payload "signature") ;;
  payload <- eval (get paymentPayload "payload") ;;
  transaction <- eval (get payload "transaction") ;;
  return_if (negb (truthy signature) || negb (truthy transaction))
    (rejected "Invalid payload: missing signature or transaction") ;;
  (* verify tx signature *)
  result <- call (EvVerifyWithApi api paymentPayload)
                 (verifyWithApi P api paymentPayload) ;;
  return_if (negb (vr_isValid result))
    (NextResponse_json
       {| isValid := false; invalidReason := vr_invalidReason result |} 200) ;;
  let duration := now - startTime in
  let response := {| isValid := true; invalidReason := VNull |} in
  let nextResponse := NextResponse_json response 200 in
  reply (headers_set nextResponse "X-Verification-Time" (dec duration)).

(** The outer [catch (error)]. *)
Definition POST_catch (error : Error) : Response :=
  NextResponse_json
    {| isValid := false;
       invalidReason := VStr (str_or (message error) (Error_toString error)) |}
    500.

Definition POST (P : Platform) (request_json : Error + value)
    (startTime now : Z) : list (event (api P)) * Response :=
  run (POST_try P request_json startTime now) POST_catch.

End Verify.

(* ================================================================== *)
(** ** POST /api/facilitator/settle *)
(* ================================================================== *)

Module Settle.

(** [SettleResponse] *)
Record SettleResponse : Type :=
  { success : bool; error : value; txHash : value; networkId : value }.

Definition Response : Type := NextResponse SettleResponse.

(** [{success: false, error, txHash: null, networkId: null}] *)
Definition failure (err : value) : SettleResponse :=
  {| success := false; error := err; txHash := VNull; networkId := VNull |}.

Definition rejected (reason : string) : Response :=
  NextResponse_json (failure (VStr reason)) 200.

Definition settleOptions : SettleOptions := {| waitForFinalization := false |}.

(** The [try] body of the handler, read as [Verify.POST_try] is. *)
Definition POST_try (P : Platform) (request_json : Error + value)
    (startTime now : Z) : M (event (api P)) Response Response :=
  body <- eval request_json ;;
  x402Version <- eval (destructure "body" body "x402Version") ;;
  paymentHeader <- eval (destructure "body" body "paymentHeader") ;;
  paymentRequirements <- eval (destructure "body" body "paymentRequirements") ;;
  (* console.log(`Request body:`, {...}) *)
  eval (get paymentRequirements "scheme") ;;
  eval (get paymentRequirements "network") ;;
  (* Validate x402 version *)
  reject_if (negb (strict_eq x402Version (VNum (X402_VERSION P))))
    (template [Lit "Unsupported x402 version: "; Sub x402Version]) rejected ;;
  (* Validate required fields *)
  return_if (negb (truthy paymentHeader) || negb (truthy paymentRequirements))
    (NextResponse_json
       (failure (VStr "Missing paymentHeader or paymentRequirements")) 400) ;;
  (* Validate scheme *)
  req_scheme <- eval (get paymentRequirements "scheme") ;;
  reject_if (negb (strict_eq req_scheme (VStr (X402_SCHEME P))))
    (template [Lit "Unsupported scheme: "; Sub req_scheme]) rejected ;;
  (* Validate network is Vara-specific *)
  network <- eval (get paymentRequirements "network") ;;
  reject_if (negb (truthy network) || negb (includes (validVaraNetworks P) network))
    (template [Lit "Invalid Vara network: "; Sub network;
               Lit ". Expected one of ";
               Sub (VArr (map VStr (validVaraNetworks P)))]) rejected ;;
  api <- call (EvUseApi network) (useApi P network) ;;
  (* Parse the payment header (base64 encoded PaymentPayload) *)
  header <- eval (substring_receiver "paymentHeader" paymentHeader) ;;
  paymentPayloadJson <-
    try_catch (call (EvBase64 header) (base64_utf8 P header))
      (fun decodeError =>
         reply_with
           (template [Lit "Invalid Vara network: "; Sub network;
                      Lit ". Expected one of ";
                      Sub (VArr (map VStr (validVaraNetworks P)))]) rejected) ;;
  paymentPayload <-
    try_catch (call (EvJsonParse paymentPayloadJson) (JSON_parse P paymentPayloadJson))
      (fun parseError => reply (rejected "Invalid JSON in payment payload")) ;;
  (* console.log(`Parsed payment payload:`, {...}) *)
  eval (get paymentPayload "x402Version") ;;
  eval (get paymentPayload "scheme") ;;
  eval (get paymentPayload "network") ;;
  eval (get paymentPayload "payload") ;;
  (* Validate payment payload matches requirements *)
  pay_scheme <- eval (get paymentPayload "scheme") ;;
  req_scheme <- eval (get paymentRequirements "scheme") ;;
  reject_if (negb (strict_eq pay_scheme req_scheme))
    (template [Lit "Scheme mismatch: expected "; Sub req_scheme;
               Lit ", got "; Sub pay_scheme]) rejected ;;
  pay_network <- eval (get paymentPayload "network") ;;
  req_network <- eval (get paymentRequirements "network") ;;
  reject_if (negb (strict_eq pay_network req_network))
    (template [Lit "Network mismatch: expected "; Sub req_network;
               Lit ", got "; Sub pay_network]) rejected ;;
  payload <- eval (get paymentPayload "payload") ;;
  signature <- eval (get payload "signature") ;;
  payload <- eval (get paymentPayload "payload") ;;
  transaction <- eval (get payload "transaction") ;;
  return_if (negb (truthy signature) || negb (truthy transaction))
    (rejected "Invalid payload: missing signature or transaction") ;;
  (* settle tx *)
  result <- call (EvSettleWithApi api paymentPayload settleOptions)
                 (settleWithApi P api paymentPayload settleOptions) ;;
  return_if (negb (sr_success result))
    (NextResponse_json (failure (sr_message result)) 200) ;;
  let pendingTx_hash := sr_txHash result in
  (* console.log(`Transaction hash: ${pendingTx.hash}`) *)
  eval (template [Lit "[Facilitator Settle] Transaction hash: "; Sub pendingTx_hash]) ;;
  let duration := now - startTime in
  let settleResponse :=
    {| success := true; error := VNull;
       txHash := pendingTx_hash; networkId := network |} in
  let nextResponse := NextResponse_json settleResponse 200 in
  reply (headers_set nextResponse "X-Settlement-Time" (dec duration)).

(** The substrings that mark a duplicate submission. *)
Definition is_duplicate (msg : string) : bool :=
  str_includes "SEQUENCE_NUMBER_TOO_OLD" msg
  || str_includes "INVALID_SEQ_NUMBER" msg
  || str_includes "already submitted" msg.

(** The outer [catch (error)]. *)
Definition POST_catch (err : Error) : Response :=
  if is_duplicate (message err)
  then NextResponse_json (failure (VStr "Transaction already used")) 409
  else NextResponse_json
         (failure (VStr (str_or (message err) (Error_toString err)))) 500.

Definition POST (P : Platform) (request_json : Error + value)
    (startTime now : Z) : list (event (api P)) * Response :=
  run (POST_try P request_json startTime now) POST_catch.

End Settle.

(* ================================================================== *)
(** ** Test doubles *)
(* ================================================================== *)

Module Fixture.

Definition requirements : value :=
  VObj [("scheme", VStr "exact"); ("network", VStr "vara-testnet");
        ("maxAmountRequired", VStr "1000000000000");
        ("payTo", VStr "kGkLEU3e3XXkJp2WK4eNpVmSab5xUNL9QtmLPh8QfCL2EgotW");
        ("asset", VStr "native")].

Definition transaction : value :=
  VObj [("address", VStr "kGgvxgM2sJF7fWUze3fNWBWzy5momsyna9XF8hhz4Xd8GEjKe")].

(** A decoded [PaymentPayload] with the given inner [payload]. *)
Definition payment (scheme network asset : string) (inner : value) : value :=
  VObj [("x402Version", VNum 1); ("scheme", VStr scheme);
        ("network", VStr network); ("asset", VStr asset); ("payload", inner)].

Definition signed : value :=
  VObj [("signature", VStr "0xa1b2"); ("transaction", transaction)].

Definition request (version header reqs : value) : Error + value :=
  inr (VObj [("x402Version", version); ("paymentHeader", header);
             ("paymentRequirements", reqs)]).

(** Headers the stub decoder knows, with the payload each stands for;
    [bad-json] decodes to text that does not parse, and any other
    header decodes to the empty text, as one without a base64
    character does. *)
Definition payloads : list (string * value) :=
  [("good", payment "exact" "vara-testnet" "native" signed);
   ("other-scheme", payment "upto" "vara-testnet" "native" signed);
   ("other-network", payment "exact" "vara" "native" signed);
   ("other-asset", payment "exact" "vara-testnet" "0x01" signed);
   ("no-signature",
    payment "exact" "vara-testnet" "native" (VObj [("transaction", transaction)]));
   ("no-transaction",
    payment "exact" "vara-testnet" "native" (VObj [("signature", VStr "0xa1b2")]));
   ("odd-scheme",
    VObj [("x402Version", VNum 1); ("scheme", VObj [("toString", VNum 0)]);
          ("network", VStr "vara-testnet"); ("asset", VStr "native");
          ("payload", signed)])].

Fixpoint assoc {A} (k : string) (l : list (string * A)) : option A :=
  match l with
  | [] => None
  | (k', v) :: r => if String.eqb k k' then Some v else assoc k r
  end.

(** The handle the stub gives for a network. *)
Definition handle (network : value) : string :=
  match network with
  | VStr s => s
  | _ => EmptyString
  end.

(** A platform whose chain reports [balance] for every account and
    whose delegates answer [verified] and [settled]. *)
Definition platform (balance : Z) (verified : Error + VerifyResult)
    (settled : Error + SettleResult) : Platform :=
  {| api := string;
     X402_VERSION := 1;
     X402_SCHEME := "exact";
     validVaraNetworks := ["vara-testnet"; "vara"];
     useApi := fun network => inr (handle network);
     balanceOf := fun _ _ _ => inr balance;
     verifyWithApi := fun _ _ => verified;
     settleWithApi := fun _ _ _ => settled;
     base64_utf8 := fun h =>
       if String.eqb h "bad-json" then inr "{"
       else match assoc h payloads with
            | Some _ => inr h
            | None => inr EmptyString
            end;
     JSON_parse := fun text =>
       match assoc text payloads with
       | Some v => inr v
       | None => inl (SyntaxError "Unexpected end of JSON input")
       end |}.

Definition valid : Error + VerifyResult :=
  inr {| vr_isValid := true; vr_invalidReason := VNull |}.

Definition submitted : Error + SettleResult :=
  inr {| sr_success := true; sr_txHash := VStr "0x5e77"; sr_message := VUndefined |}.

Definition rich : Platform := platform 2000000000000 valid submitted.

End Fixture.

(** Does a trace contain no call to [verifyWithApi] or [settleWithApi]? *)
Definition no_delegate_call {A : Type} (tr : list (event A)) : bool :=
  forallb (fun ev =>
             match ev with
             | EvVerifyWithApi _ _ | EvSettleWithApi _ _ _ => false
             | _ => true
             end) tr.

(** Does a trace contain no decoding step? *)
Definition no_decoding {A : Type} (tr : list (event A)) : bool :=
  forallb (fun ev =>
             match ev with
             | EvBase64 _ | EvJsonParse _ => false
             | _ => true
             end) tr.

(** The three kinds of call that reach the chain. *)
Definition is_balance_query {A : Type} (ev : event A) : bool :=
  match ev with EvBalanceOf _ _ _ => true | _ => false end.

Definition is_verify_call {A : Type} (ev : event A) : bool :=
  match ev with EvVerifyWithApi _ _ => true | _ => false end.

Definition is_settle_call {A : Type} (ev : event A) : bool :=
  match ev with EvSettleWithApi _ _ _ => true | _ => false end.

(** The markers the settle handler looks for in a fault's message. *)
Definition duplicate_markers : list string :=
  ["SEQUENCE_NUMBER_TOO_OLD"; "INVALID_SEQ_NUMBER"; "already submitted"].

(** The response verify gives once its delegate has answered. *)
Definition verify_verdict (outcome : Error + VerifyResult) (t0 t1 : Z)
  : Verify.Response :=
  match outcome with
  | inl e => Verify.POST_catch e
  | inr r =>
      if vr_isValid r
      then {| status := 200;
              json_body := {| Verify.isValid := true; Verify.invalidReason := VNull |};
              headers := [("X-Verification-Time", dec (t1 - t0))] |}
      else {| status := 200;
              json_body := {| Verify.isValid := false;
                              Verify.invalidReason := vr_invalidReason r |};
              headers := [] |}
  end.

(** The response settle gives once its delegate has answered; on
    success the hash is printed to the log before the response is made. *)
Definition settle_verdict (outcome : Error + SettleResult) (network : value)
    (t0 t1 : Z) : Settle.Response :=
  match outcome with
  | inl e => Settle.POST_catch e
  | inr r =>
      if sr_success r
      then match to_string (sr_txHash r) with
           | inl e => Settle.POST_catch e
           | inr _ =>
               {| status := 200;
                  json_body := {| Settle.success := true; Settle.error := VNull;
                                  Settle.txHash := sr_txHash r;
                                  Settle.networkId := network |};
                  headers := [("X-Settlement-Time", dec (t1 - t0))] |}
           end
      else {| status := 200;
              json_body := {| Settle.success := false; Settle.error := sr_message r;
                              Settle.txHash := VNull; Settle.networkId := VNull |};
              headers := [] |}
  end.

(* ================================================================== *)
(** ** How far a request gets *)
(* ================================================================== *)

(** The two 400 responses of the required-fields gate. *)
Definition missing_fields_verify : Verify.Response :=
  {| status := 400;
     json_body := {| Verify.isValid := false;
                Verify.invalidReason :=
                  VStr "Missing paymentHeader or paymentRequirements" |};
     headers := [] |}.

Definition missing_fields_settle : Settle.Response :=
  {| status := 400;
     json_body := {| Settle.success := false;
                Settle.error := VStr "Missing paymentHeader or paymentRequirements";
                Settle.txHash := VNull; Settle.networkId := VNull |};
     headers := [] |}.

(** The request passes the version, required-fields, scheme and network
    gates, which both handlers apply alike. *)
Definition passes_request_gates (P : Platform) (body : value) : Prop :=
  let reqs := prop body "paymentRequirements" in
  prop body "x402Version" = VNum (X402_VERSION P)
  /\ truthy (prop body "paymentHeader") = true
  /\ truthy reqs = true
  /\ prop reqs "scheme" = VStr (X402_SCHEME P)
  /\ truthy (prop reqs "network") = true
  /\ includes (validVaraNetworks P) (prop reqs "network") = true.

(** A well-formed request: it passes the request gates, the chain API
    is acquired as [a], and its header decodes to the object [payload]. *)
Definition decodes_to (P : Platform) (body : value) (a : api P)
    (payload : value) : Prop :=
  passes_request_gates P body
  /\ useApi P (prop (prop body "paymentRequirements") "network") = inr a
  /\ nullish payload = false
  /\ exists header text,
       prop body "paymentHeader" = VStr header
       /\ base64_utf8 P header = inr text
       /\ JSON_parse P text = inr payload.

(** [payload.k !== paymentRequirements.k] *)
Definition differs (body payload : value) (k : string) : Prop :=
  strict_eq (prop payload k) (prop (prop body "paymentRequirements") k) = false.

(** [payload.k === paymentRequirements.k] *)
Definition agrees (body payload : value) (k : string) : Prop :=
  strict_eq (prop payload k) (prop (prop body "paymentRequirements") k) = true.

(** The two values a mismatch message shows for the field [k] convert
    to the strings [expected] and [got]. *)
Definition shown_as (body payload : value) (k expected got : string) : Prop :=
  to_string (prop (prop body "paymentRequirements") k) = inr expected
  /\ to_string (prop payload k) = inr got.

(** A verify request that reaches the balance comparison with the
    operands [amount] and [balance]. *)
Definition reaches_balance_gate (P : Platform) (body : value) (a : api P)
    (payload : value) (amount balance : Z) : Prop :=
  decodes_to P body a payload
  /\ agrees body payload "scheme"
  /\ agrees body payload "network"
  /\ agrees body payload "asset"
  /\ BigInt (prop (prop body "paymentRequirements") "maxAmountRequired") = inr amount
  /\ nullish (prop payload "payload") = false
  /\ nullish (prop (prop payload "payload") "transaction") = false
  /\ balanceOf P a
       (prop (prop (prop payload "payload") "transaction") "address")
       (prop payload "asset") = inr balance.

(* ================================================================== *)
(** ** Decimal rendering and [BigInt] *)
(* ================================================================== *)

Section Decimal.

Let chars (s : string) : list ascii := list_ascii_of_string s.

Lemma str_rev_involutive (s : string) : str_rev (str_rev s) = s.
Proof.
  unfold str_rev.
  rewrite list_ascii_of_string_of_list_ascii, rev_involutive.
  apply string_of_list_ascii_of_string.
Qed.

Lemma trim_start_fixed (s : string) :
  (forall c, In c (chars s) -> is_space c = false) -> trim_start s = s.
Proof.
  destruct s as [|c r]; simpl; intros H; [reflexivity|].
  now rewrite (H c (or_introl eq_refl)).
Qed.

Lemma trim_fixed (s : string) :
  (forall c, In c (chars s) -> is_space c = false) -> trim s = s.
Proof.
  intros H. unfold trim.
  rewrite (trim_start_fixed s H).
  rewrite trim_start_fixed; [apply str_rev_involutive|].
  intros c Hc. apply H. unfold chars, str_rev in *.
  rewrite list_ascii_of_string_of_list_ascii in Hc.
  now apply in_rev.
Qed.

Lemma numeral_char_not_space (c : ascii) :
  is_numeral_char c = true -> is_space c = false.
Proof.
  destruct c as [[] [] [] [] [] [] [] []]; vm_compute; congruence.
Qed.

Lemma numeral_char_no_prefix (c : ascii) :
  is_numeral_char c = true -> radix_of_prefix c = None.
Proof.
  destruct c as [[] [] [] [] [] [] [] []]; vm_compute; congruence.
Qed.

Lemma uint_chars (d : Decimal.uint) :
  forall c, In c (chars (NilEmpty.string_of_uint d)) ->
            is_numeral_char c = true /\ c <> "-"%char /\ c <> "+"%char.
Proof.
  induction d; simpl; intros c Hc; [contradiction | ..];
    (destruct Hc as [<- | Hc]; [|now apply IHd]);
    (split; [reflexivity | split; discriminate]).
Qed.

Lemma dec_nonneg_chars (z : Z) :
  0 <= z ->
  forall c, In c (chars (dec z)) ->
            is_numeral_char c = true /\ c <> "-"%char /\ c <> "+"%char.
Proof.
  intros Hz c. unfold dec. destruct z as [|p|p]; [| |lia].
  - simpl. intros [<- | []]. split; [reflexivity | split; discriminate].
  - simpl Z.to_int. simpl NilZero.string_of_int. unfold NilZero.string_of_uint.
    pose proof (DecimalPos.Unsigned.to_uint_nonnil p) as Hn.
    destruct (Pos.to_uint p) eqn:E; [congruence | ..]; rewrite <- E; apply uint_chars.
Qed.

Lemma decimal_dec (z : Z) : 0 <= z -> decimal (dec z) = Some z.
Proof.
  intros Hz. unfold decimal, dec. destruct z as [|p|p]; [reflexivity | | lia].
  simpl Z.to_int. simpl NilZero.string_of_int.
  rewrite NilZero.usu by apply DecimalPos.Unsigned.to_uint_nonnil.
  simpl. unfold Z.of_uint. now rewrite DecimalPos.Unsigned.of_to.
Qed.

Lemma literal_dec_nonneg (z : Z) : 0 <= z -> StrIntegerLiteral (dec z) = Some z.
Proof.
  intros Hz. pose proof (dec_nonneg_chars z Hz) as Hc.
  pose proof (decimal_dec z Hz) as Hd.
  unfold StrIntegerLiteral.
  destruct (dec z) as [|c1 r] eqn:E; [exact Hd|].
  assert (Hp : prefixed (String c1 r) = None).
  { destruct r as [|c2 r']; simpl; [reflexivity|].
    destruct (Ascii.eqb c1 "0"); [|reflexivity].
    rewrite numeral_char_no_prefix; [reflexivity|].
    apply (Hc c2). simpl. auto. }
  rewrite Hp.
  destruct (Hc c1 (or_introl eq_refl)) as (_ & Hm & Hpl).
  destruct (Ascii.eqb_spec c1 "+"); [contradiction|].
  destruct (Ascii.eqb_spec c1 "-"); [contradiction|].
  exact Hd.
Qed.

Lemma dec_neg (p : positive) : dec (Z.neg p) = String "-" (dec (Z.pos p)).
Proof. reflexivity. Qed.

Lemma literal_dec (z : Z) : StrIntegerLiteral (dec z) = Some z.
Proof.
  destruct (Z_lt_le_dec z 0) as [Hneg | Hpos]; [|now apply literal_dec_nonneg].
  destruct z as [|p|p]; try lia.
  rewrite dec_neg. unfold StrIntegerLiteral.
  assert (Hp : prefixed (String "-" (dec (Z.pos p))) = None).
  { simpl. now destruct (dec (Z.pos p)). }
  rewrite Hp. simpl Ascii.eqb. cbv iota.
  rewrite decimal_dec by lia. reflexivity.
Qed.

Lemma dec_chars (z : Z) :
  forall c, In c (chars (dec z)) -> is_numeral_char c = true.
Proof.
  intros c. destruct (Z_lt_le_dec z 0) as [Hneg | Hpos].
  - destruct z as [|p|p]; try lia. rewrite dec_neg. simpl.
    intros [<- | Hc]; [reflexivity|].
    now apply (dec_nonneg_chars (Z.pos p)).
  - intros Hc. now apply (dec_nonneg_chars z).
Qed.

Lemma dec_nonempty (z : Z) : dec z <> EmptyString.
Proof.
  intros E. pose proof (literal_dec z) as H. rewrite E in H.
  destruct z; discriminate.
Qed.

(** A decimal numeral written by [dec] reads back as the same integer,
    whatever its size. *)
Lemma StringToBigInt_dec (z : Z) : StringToBigInt (dec z) = Some z.
Proof.
  unfold StringToBigInt. rewrite trim_fixed.
  - pose proof (dec_nonempty z). pose proof (literal_dec z).
    destruct (dec z); congruence.
  - intros c Hc. apply numeral_char_not_space. now apply (dec_chars z).
Qed.

Lemma BigInt_dec (z : Z) : BigInt (VStr (dec z)) = inr z.
Proof. unfold BigInt. cbn [to_string]. now rewrite StringToBigInt_dec. Qed.

End Decimal.

(* ================================================================== *)
(** ** Stepping through a handler body *)
(* ================================================================== *)

Section FlowLaws.

Context {E R A B : Type}.
Implicit Types (k : A -> M E R B) (h : Error -> R).

Lemma bind_eval_inr (a : A) k : bind (eval (inr a)) k = k a.
Proof. unfold bind, eval. now destruct (k a). Qed.

Lemma bind_eval_inl (e : Error) k : bind (eval (inl e : Error + A)) k = ([], Throw e).
Proof. reflexivity. Qed.

Lemma bind_call_inr (ev : E) (a : A) k : bind (call ev (inr a)) k = emit ev (k a).
Proof. unfold bind, call, emit. now destruct (k a). Qed.

Lemma bind_call_inl (ev : E) (e : Error) k :
  bind (call ev (inl e : Error + A)) k = ([ev], Throw e).
Proof. reflexivity. Qed.

Lemma bind_try_inr (ev : E) (a : A) (c : Error -> M E R A) k :
  bind (try_catch (call ev (inr a)) c) k = emit ev (k a).
Proof. unfold bind, try_catch, call, emit. now destruct (k a). Qed.

Lemma bind_try_inl (ev : E) (e : Error) (c : Error -> M E R A) k :
  bind (try_catch (call ev (inl e : Error + A)) c) k = emit ev (bind (c e) k).
Proof.
  unfold bind, try_catch, call, emit. destruct (c e) as [t [x | r | e']]; cbn.
  - now destruct (k x).
  - reflexivity.
  - reflexivity.
Qed.

Lemma bind_reply (r : R) k : bind (reply r) k = reply r.
Proof. reflexivity. Qed.

Lemma bind_reply_with (msg : Error + string) (mk : string -> R) k :
  bind (reply_with msg mk) k = reply_with msg mk.
Proof. now destruct msg. Qed.

Lemma bind_reject_if_true (msg : Error + string) (mk : string -> R)
    (k' : unit -> M E R B) :
  bind (reject_if true msg mk) k' = reply_with msg mk.
Proof. now destruct msg. Qed.

Lemma bind_reject_if_false (msg : Error + string) (mk : string -> R)
    (k' : unit -> M E R B) :
  bind (reject_if false msg mk) k' = k' tt.
Proof. unfold bind, reject_if, pure. now destruct (k' tt). Qed.

Lemma bind_return_if_true (r : R) (k' : unit -> M E R B) :
  bind (return_if true r) k' = ([], Return r).
Proof. reflexivity. Qed.

Lemma bind_return_if_false (r : R) (k' : unit -> M E R B) :
  bind (return_if false r) k' = k' tt.
Proof. unfold bind, return_if, pure. now destruct (k' tt). Qed.

End FlowLaws.

Lemma run_emit {E R : Type} (ev : E) (m : M E R R) (h : Error -> R) :
  run (emit ev m) h = (ev :: fst (run m h), snd (run m h)).
Proof. destruct m as [t [r | r | e]]; reflexivity. Qed.

Lemma get_ok (o : value) (k : string) :
  nullish o = false -> get o k = inr (prop o k).
Proof. unfold get. now intros ->. Qed.

Lemma get_fails (o : value) (k : string) :
  nullish o = true -> get o k = inl (read_fault o k).
Proof. unfold get. now intros ->. Qed.

Lemma destructure_ok (what : string) (o : value) (k : string) :
  nullish o = false -> destructure what o k = inr (prop o k).
Proof. unfold destructure. now intros ->. Qed.

Lemma destructure_fails (what : string) (o : value) (k : string) :
  nullish o = true -> exists e, destructure what o k = inl e.
Proof. unfold destructure. intros ->. eauto. Qed.

(** An array of strings prints as its elements joined by commas. *)
Lemma to_string_strings (l : list string) :
  to_string (VArr (map VStr l)) = inr (join "," l).
Proof.
  cbn [to_string].
  assert (H : (fix elems (l : list value) : Error + list string :=
                 match l with
                 | [] => inr []
                 | x :: r =>
                     match
                       match x with
                       | VUndefined | VNull => inr EmptyString
                       | _ => to_string x
                       end
                     with
                     | inl e => inl e
                     | inr s =>
                         match elems r with
                         | inl e => inl e
                         | inr ss => inr (s :: ss)
                         end
                     end
                 end) (map VStr l) = inr l).
  { induction l as [|s l IH]; [reflexivity|]. cbn [map to_string]. now rewrite IH. }
  now rewrite H.
Qed.

(** A log line that prints one value raises exactly when the value's
    conversion does. *)
Lemma template_one (s : string) (v : value) :
  template [Lit s; Sub v]
  = match to_string v with
    | inl e => inl e
    | inr shown => inr (s ++ shown)
    end.
Proof. reflexivity. Qed.

Lemma truthy_not_nullish (v : value) : truthy v = true -> nullish v = false.
Proof. now destruct v. Qed.

Lemma truthy_prop_not_nullish (o : value) (k : string) :
  truthy (prop o k) = true -> nullish o = false.
Proof. now destruct o. Qed.

Lemma strict_eq_num (n : Z) : strict_eq (VNum n) (VNum n) = true.
Proof. apply Z.eqb_refl. Qed.

Lemma strict_eq_str (s : string) : strict_eq (VStr s) (VStr s) = true.
Proof. apply String.eqb_refl. Qed.

(** Use a hypothesis about a subterm of [c], if there is one. *)
Ltac use_fact c :=
  first
    [ match goal with H : c = _ |- _ => rewrite !H end
    | lazymatch c with
      | negb ?d => match goal with H : d = _ |- _ => rewrite !H end
      end
    | match goal with
      | H : ?d = _ |- _ =>
          lazymatch d with
          | true => fail
          | false => fail
          | _ => lazymatch c with context [d] => rewrite !H in * end
          end
      end ].

(** Settle the conversion at the head of a template: from a hypothesis,
    by computing it, or by cases. *)
Ltac show_value msg :=
  first
    [ progress cbn [template piece_text]
    | rewrite to_string_strings
    | lazymatch msg with
      | context [to_string ?v] =>
          first [ match goal with H : to_string v = _ |- _ => rewrite !H end
                | progress cbn [to_string]
                | let S := fresh "Hshow" in destruct (to_string v) eqn:S ]
      end ].

(** One statement of the body: decide the expression at its head from
    the hypotheses, or split on it. *)
Ltac flow_step :=
  lazymatch goal with
  | |- context [run (emit _ _) _] => rewrite run_emit
  | |- context [run (bind (reply _) _) _] => rewrite bind_reply
  | |- context [run (bind (reply_with _ _) _) _] => rewrite bind_reply_with
  | |- context [run (reply_with ?msg _) _] => show_value msg
  | |- context [run (bind (eval (inr _)) _) _] => rewrite bind_eval_inr
  | |- context [run (bind (eval (inl _)) _) _] => rewrite bind_eval_inl
  | |- context [run (bind (call _ (inr _)) _) _] => rewrite bind_call_inr
  | |- context [run (bind (call _ (inl _)) _) _] => rewrite bind_call_inl
  | |- context [run (bind (try_catch (call _ (inr _)) _) _) _] => rewrite bind_try_inr
  | |- context [run (bind (try_catch (call _ (inl _)) _) _) _] => rewrite bind_try_inl
  | |- context [run (bind (return_if true _) _) _] => rewrite bind_return_if_true
  | |- context [run (bind (return_if false _) _) _] => rewrite bind_return_if_false
  | |- context [run (bind (reject_if true _ _) _) _] => rewrite bind_reject_if_true
  | |- context [run (bind (reject_if false _ _) _) _] => rewrite bind_reject_if_false
  | |- context [run (bind (eval (substring_receiver _ (VStr _))) _) _] =>
      cbn [substring_receiver]
  | |- context [run (bind (eval (get ?o ?k)) _) _] =>
      first
        [ rewrite (get_ok o k) by (assumption || (apply truthy_not_nullish; assumption))
        | rewrite (get_fails o k) by assumption
        | let N := fresh "Hnull" in
          destruct (nullish o) eqn:N;
          [rewrite (get_fails o k N) | rewrite (get_ok o k N)] ]
  | |- context [run (bind (eval (destructure ?w ?o ?k)) _) _] =>
      first
        [ rewrite (destructure_ok w o k) by assumption
        | let N := fresh "Hnull" in
          let e := fresh "e" in
          let F := fresh "Hfault" in
          destruct (nullish o) eqn:N;
          [ destruct (destructure_fails w o k N) as [e F]; rewrite F
          | rewrite (destructure_ok w o k N) ] ]
  | |- context [run (bind (eval (template ?ps)) _) _] =>
      show_value (template ps)
  | |- context [run (bind (return_if ?c _) _) _] =>
      first [ use_fact c; rewrite ?strict_eq_num, ?strict_eq_str; cbn [negb orb andb]
            | let C := fresh "Hcond" in destruct c eqn:C ]
  | |- context [run (bind (reject_if ?c _ _) _) _] =>
      first [ use_fact c; rewrite ?strict_eq_num, ?strict_eq_str; cbn [negb orb andb]
            | let C := fresh "Hcond" in destruct c eqn:C ]
  | |- context [run (bind (eval ?x) _) _] =>
      first [ use_fact x
            | lazymatch x with
              | context [to_string ?v] =>
                  let S := fresh "Hshow" in destruct (to_string v) eqn:S
              end
            | let X := fresh "Heval" in destruct x eqn:X ]
  | |- context [run (bind (call _ ?x) _) _] =>
      first [ use_fact x | let X := fresh "Hcall" in destruct x eqn:X ]
  | |- context [run (bind (try_catch (call _ ?x) _) _) _] =>
      first [ use_fact x | let X := fresh "Hcall" in destruct x eqn:X ]
  end;
  cbv beta; cbn [fst snd].

Ltac flow_done :=
  cbn [run fst snd reply reply_with status json_body headers NextResponse_json
       headers_set
       Verify.isValid Verify.invalidReason Verify.rejected Verify.POST_catch
       Settle.success Settle.error Settle.txHash Settle.networkId
       Settle.rejected Settle.failure filter].

Ltac flow := repeat flow_step; flow_done.

(** Unpack [decodes_to] into the facts the gates test. *)
Ltac open_request H :=
  let G := fresh "Hgates" in
  let header := fresh "header" in
  let text := fresh "text" in
  let Hh := fresh "Hheader" in
  let Ht := fresh "Htruthy" in
  destruct H as (G & ? & ? & (header & text & Hh & ? & ?));
  destruct G as (? & Ht & ? & ? & ? & ?);
  pose proof (truthy_prop_not_nullish _ _ Ht);
  rewrite Hh in Ht.

(* ================================================================== *)
(** ** The request gates *)
(* ================================================================== *)

Section RequestGates.

Variables (P : Platform) (body : value) (t0 t1 : Z).

Let reqs : value := prop body "paymentRequirements".

(** With a supported version and [paymentRequirements] not [null] or
    [undefined], a falsy header or falsy requirements give the 400. *)
Lemma required_fields_gate :
  nullish body = false -> nullish reqs = false ->
  prop body "x402Version" = VNum (X402_VERSION P) ->
  truthy (prop body "paymentHeader") && truthy reqs = false ->
  Verify.POST P (inr body) t0 t1 = ([], missing_fields_verify)
  /\ Settle.POST P (inr body) t0 t1 = ([], missing_fields_settle).
Proof.
  subst reqs. intros Hb Hr Hv Hf.
  assert (Hc : negb (truthy (prop body "paymentHeader"))
               || negb (truthy (prop body "paymentRequirements")) = true).
  { rewrite <- negb_andb, Hf. reflexivity. }
  unfold Verify.POST, Verify.POST_try, Settle.POST, Settle.POST_try.
  split; flow; reflexivity.
Qed.

End RequestGates.

(** X1. With [paymentRequirements] an object, a version that is not the
    supported one and that converts to a string is rejected first, with
    status 200 and no call, whatever the other fields hold. *)
Theorem version_gate (P : Platform) (body : value) (shown : string) (t0 t1 : Z) :
  nullish body = false ->
  nullish (prop body "paymentRequirements") = false ->
  strict_eq (prop body "x402Version") (VNum (X402_VERSION P)) = false ->
  to_string (prop body "x402Version") = inr shown ->
  Verify.POST P (inr body) t0 t1
  = ([], {| status := 200;
            json_body :=
              {| Verify.isValid := false;
                 Verify.invalidReason := VStr ("Unsupported x402 version: " ++ shown) |};
            headers := [] |})
  /\ Settle.POST P (inr body) t0 t1
     = ([], {| status := 200;
               json_body :=
                 {| Settle.success := false;
                    Settle.error := VStr ("Unsupported x402 version: " ++ shown);
                    Settle.txHash := VNull; Settle.networkId := VNull |};
               headers := [] |}).
Proof.
  intros Hb Hr Hv Hs.
  unfold Verify.POST, Verify.POST_try, Settle.POST, Settle.POST_try.
  split; flow; reflexivity.
Qed.

Lemma version_gate_witness :
  let body := VObj [("x402Version", VNum (10 ^ 21)); ("paymentHeader", VStr "good");
                    ("paymentRequirements", Fixture.requirements)] in
  Verify.POST Fixture.rich (inr body) 0 0
  = ([], {| status := 200;
            json_body :=
              {| Verify.isValid := false;
                 Verify.invalidReason := VStr "Unsupported x402 version: 1e+21" |};
            headers := [] |})
  /\ Settle.POST Fixture.rich (inr body) 0 0
     = ([], {| status := 200;
               json_body :=
                 {| Settle.success := false;
                    Settle.error := VStr "Unsupported x402 version: 1e+21";
                    Settle.txHash := VNull; Settle.networkId := VNull |};
               headers := [] |}).
Proof.
  intros body.
  exact (version_gate Fixture.rich body "1e+21" 0 0 eq_refl eq_refl eq_refl eq_refl).
Defined.

(** C1 (defect). A body with a supported [x402Version] and a
    [paymentHeader] but no [paymentRequirements] does not get the 400
    "Missing paymentHeader or paymentRequirements" rejection: the
    request-body log reads [paymentRequirements.scheme] before any gate,
    the read raises, and both endpoints answer through the outer catch
    with status 500 and the message of that fault. *)
Theorem C1_missing_requirements_faults (P : Platform) (paymentHeader : value)
    (t0 t1 : Z) :
  let request : Error + value :=
    inr (VObj [("x402Version", VNum (X402_VERSION P));
               ("paymentHeader", paymentHeader)]) in
  let reason := VStr (message (read_fault VUndefined "scheme")) in
  Verify.POST P request t0 t1
  = ([], {| status := 500;
            json_body := {| Verify.isValid := false; Verify.invalidReason := reason |};
            headers := [] |})
  /\ Settle.POST P request t0 t1
     = ([], {| status := 500;
               json_body := {| Settle.success := false; Settle.error := reason;
                               Settle.txHash := VNull; Settle.networkId := VNull |};
               headers := [] |}).
Proof. split; reflexivity. Qed.

(** C6 (defect). The version gate is not the first thing that can end
    a request: when [paymentRequirements] is absent, the request-body
    log faults before the gate, so a request with any [x402Version],
    supported or not, is answered with status 500 and the message of
    that fault, not with "Unsupported x402 version". *)
Theorem C6_version_gate_after_log (P : Platform) (x402Version paymentHeader : value)
    (t0 t1 : Z) :
  let request : Error + value :=
    inr (VObj [("x402Version", x402Version); ("paymentHeader", paymentHeader)]) in
  let reason := VStr (message (read_fault VUndefined "scheme")) in
  status (snd (Verify.POST P request t0 t1)) = 500
  /\ Verify.invalidReason (json_body (snd (Verify.POST P request t0 t1))) = reason
  /\ status (snd (Settle.POST P request t0 t1)) = 500
  /\ Settle.error (json_body (snd (Settle.POST P request t0 t1))) = reason.
Proof. repeat split; reflexivity. Qed.

(** C9 (counterexample). An empty [paymentHeader] with an unsupported
    version is answered by the version gate, status 200, on both
    endpoints: not every request with an empty header gets the 400. *)
Lemma C9_empty_header_other_version :
  let request := Fixture.request (VNum 2) (VStr EmptyString) Fixture.requirements in
  snd (Verify.POST Fixture.rich request 0 0)
  = Verify.rejected "Unsupported x402 version: 2"
  /\ snd (Settle.POST Fixture.rich request 0 0)
     = Settle.rejected "Unsupported x402 version: 2"
  /\ status (snd (Verify.POST Fixture.rich request 0 0)) <> 400
  /\ status (snd (Settle.POST Fixture.rich request 0 0)) <> 400.
Proof. repeat split; try reflexivity; vm_compute; discriminate. Qed.

(** C9 (amended). When [paymentHeader] is the empty string, neither
    endpoint reaches the base64/JSON decoder; and when moreover the
    version is the supported one and [paymentRequirements] is neither
    [null] nor [undefined], both endpoints answer 400 with
    "Missing paymentHeader or paymentRequirements". *)
Theorem C9_empty_header_rejected (P : Platform) (body : value) (t0 t1 : Z) :
  prop body "paymentHeader" = VStr EmptyString ->
  (no_decoding (fst (Verify.POST P (inr body) t0 t1)) = true
   /\ no_decoding (fst (Settle.POST P (inr body) t0 t1)) = true)
  /\ (prop body "x402Version" = VNum (X402_VERSION P) ->
      nullish (prop body "paymentRequirements") = false ->
      Verify.POST P (inr body) t0 t1 = ([], missing_fields_verify)
      /\ Settle.POST P (inr body) t0 t1 = ([], missing_fields_settle)).
Proof.
  intros Hh.
  assert (Hb : nullish body = false) by (destruct body; try reflexivity; discriminate Hh).
  assert (Ht : truthy (prop body "paymentHeader") = false) by now rewrite Hh.
  split.
  - unfold Verify.POST, Verify.POST_try, Settle.POST, Settle.POST_try.
    split; flow; try reflexivity;
      rewrite Ht in *; cbn [negb orb] in *; discriminate.
  - intros Hv Hr. apply required_fields_gate; auto. now rewrite Ht.
Qed.

Lemma C9_empty_header_rejected_witness :
  let body := VObj [("x402Version", VNum 1); ("paymentHeader", VStr EmptyString);
                    ("paymentRequirements", Fixture.requirements)] in
  prop body "paymentHeader" = VStr EmptyString
  /\ Verify.POST Fixture.rich (inr body) 0 0 = ([], missing_fields_verify)
  /\ Settle.POST Fixture.rich (inr body) 0 0 = ([], missing_fields_settle).
Proof.
  intros body. split; [reflexivity|].
  apply (proj2 (C9_empty_header_rejected Fixture.rich body 0 0 eq_refl));
    reflexivity.
Defined.


(* ================================================================== *)
(** ** Decoding and the mismatch gates *)
(* ================================================================== *)

(** X10. Text that does not parse is reported alike by both endpoints,
    with status 200; the calls made are the handle, the decoding and
    the parse. *)
Theorem json_failure (P : Platform) (body : value) (a : api P)
    (header text : string) (e : Error) (t0 t1 : Z) :
  let network := prop (prop body "paymentRequirements") "network" in
  passes_request_gates P body ->
  useApi P network = inr a ->
  prop body "paymentHeader" = VStr header ->
  base64_utf8 P header = inr text ->
  JSON_parse P text = inl e ->
  Verify.POST P (inr body) t0 t1
  = ([EvUseApi network; EvBase64 header; EvJsonParse text],
     {| status := 200;
        json_body := {| Verify.isValid := false;
                        Verify.invalidReason := VStr "Invalid JSON in payment payload" |};
        headers := [] |})
  /\ Settle.POST P (inr body) t0 t1
     = ([EvUseApi network; EvBase64 header; EvJsonParse text],
        {| status := 200;
           json_body := {| Settle.success := false;
                           Settle.error := VStr "Invalid JSON in payment payload";
                           Settle.txHash := VNull; Settle.networkId := VNull |};
           headers := [] |}).
Proof.
  intros network Hg Hu Hh Hb Hj. subst network.
  destruct Hg as (? & Ht & ? & ? & ? & ?).
  pose proof (truthy_prop_not_nullish _ _ Ht). rewrite Hh in Ht.
  unfold Verify.POST, Verify.POST_try, Settle.POST, Settle.POST_try.
  split; flow; reflexivity.
Qed.

Lemma json_failure_witness :
  let body := VObj [("x402Version", VNum 1); ("paymentHeader", VStr "bad-json");
                    ("paymentRequirements", Fixture.requirements)] in
  passes_request_gates Fixture.rich body
  /\ snd (Verify.POST Fixture.rich (inr body) 0 0)
     = {| status := 200;
          json_body := {| Verify.isValid := false;
                          Verify.invalidReason := VStr "Invalid JSON in payment payload" |};
          headers := [] |}
  /\ snd (Settle.POST Fixture.rich (inr body) 0 0)
     = {| status := 200;
          json_body := {| Settle.success := false;
                          Settle.error := VStr "Invalid JSON in payment payload";
                          Settle.txHash := VNull; Settle.networkId := VNull |};
          headers := [] |}.
Proof.
  intros body.
  assert (Hg : passes_request_gates Fixture.rich body) by (repeat split; reflexivity).
  split; [exact Hg|].
  pose proof (json_failure Fixture.rich body "vara-testnet" "bad-json" "{"
                (SyntaxError "Unexpected end of JSON input") 0 0
                Hg eq_refl eq_refl eq_refl eq_refl) as (Hv & Hs).
  split; [rewrite Hv | rewrite Hs]; reflexivity.
Defined.

(** C3 (defect). A header that is not base64 is not reported as
    "Invalid base64 encoding in X-PAYMENT header". The decoding step
    skips what is not base64 and returns, so its catch branch is never
    entered; the header "%%%" decodes to the empty text, the parse of
    that text fails, and both endpoints answer "Invalid JSON in payment
    payload". *)
Theorem C3_malformed_base64_gets_json_message :
  let request := Fixture.request (VNum 1) (VStr "%%%") Fixture.requirements in
  base64_utf8 Fixture.rich "%%%" = inr EmptyString
  /\ Verify.POST Fixture.rich request 0 0
     = ([EvUseApi (VStr "vara-testnet"); EvBase64 "%%%"; EvJsonParse EmptyString],
        {| status := 200;
           json_body := {| Verify.isValid := false;
                           Verify.invalidReason := VStr "Invalid JSON in payment payload" |};
           headers := [] |})
  /\ Settle.POST Fixture.rich request 0 0
     = ([EvUseApi (VStr "vara-testnet"); EvBase64 "%%%"; EvJsonParse EmptyString],
        {| status := 200;
           json_body := {| Settle.success := false;
                           Settle.error := VStr "Invalid JSON in payment payload";
                           Settle.txHash := VNull; Settle.networkId := VNull |};
           headers := [] |}).
Proof. repeat split; reflexivity. Qed.

(** C5 (counterexample). A well-formed request whose decoded payload
    has for [scheme] an object with an own [toString] key differs from
    the requirements in scheme, yet is not answered with the scheme
    mismatch message: the template literal of that message cannot
    convert the object, and both endpoints answer 500. *)
Lemma C5_unprintable_scheme_faults :
  let body := VObj [("x402Version", VNum 1); ("paymentHeader", VStr "odd-scheme");
                    ("paymentRequirements", Fixture.requirements)] in
  let payload :=
    VObj [("x402Version", VNum 1); ("scheme", VObj [("toString", VNum 0)]);
          ("network", VStr "vara-testnet"); ("asset", VStr "native");
          ("payload", Fixture.signed)] in
  decodes_to Fixture.rich body "vara-testnet" payload
  /\ differs body payload "scheme"
  /\ snd (Verify.POST Fixture.rich (inr body) 0 0)
     = {| status := 500;
          json_body :=
            {| Verify.isValid := false;
               Verify.invalidReason := VStr "Cannot convert object to primitive value" |};
          headers := [] |}
  /\ snd (Settle.POST Fixture.rich (inr body) 0 0)
     = {| status := 500;
          json_body :=
            {| Settle.success := false;
               Settle.error := VStr "Cannot convert object to primitive value";
               Settle.txHash := VNull; Settle.networkId := VNull |};
          headers := [] |}.
Proof.
  intros body payload. repeat split; try reflexivity.
  exists "odd-scheme", "odd-scheme". repeat split; reflexivity.
Qed.

(** C5 (amended). For a well-formed request whose decoded payload
    differs from the requirements in scheme, network or (verify only)
    asset, and whose two values shown in the message convert to
    strings, the response is the 200 rejection with the message of the
    first field that differs; and whether they convert or not, neither
    delegate is called. *)
Theorem C5_mismatch_rejected (P : Platform) (body : value) (a : api P)
    (payload : value) (t0 t1 : Z) :
  decodes_to P body a payload ->
  let verify_rejects (reason : string) :=
    snd (Verify.POST P (inr body) t0 t1)
    = {| status := 200;
         json_body := {| Verify.isValid := false; Verify.invalidReason := VStr reason |};
         headers := [] |} in
  let settle_rejects (reason : string) :=
    snd (Settle.POST P (inr body) t0 t1)
    = {| status := 200;
         json_body := {| Settle.success := false; Settle.error := VStr reason;
                         Settle.txHash := VNull; Settle.networkId := VNull |};
         headers := [] |} in
  (forall expected got,
      differs body payload "scheme" ->
      shown_as body payload "scheme" expected got ->
      verify_rejects ("Scheme mismatch: expected " ++ expected ++ ", got " ++ got)
      /\ settle_rejects ("Scheme mismatch: expected " ++ expected ++ ", got " ++ got))
  /\ (forall expected got,
         agrees body payload "scheme" -> differs body payload "network" ->
         shown_as body payload "network" expected got ->
         verify_rejects ("Network mismatch: expected " ++ expected ++ ", got " ++ got)
         /\ settle_rejects ("Network mismatch: expected " ++ expected ++ ", got " ++ got))
  /\ (forall expected got,
         agrees body payload "scheme" -> agrees body payload "network" ->
         differs body payload "asset" ->
         shown_as body payload "asset" expected got ->
         verify_rejects ("Asset mismatch: expected " ++ expected ++ ", got " ++ got))
  /\ (differs body payload "scheme" \/ differs body payload "network" ->
      no_delegate_call (fst (Verify.POST P (inr body) t0 t1)) = true
      /\ no_delegate_call (fst (Settle.POST P (inr body) t0 t1)) = true)
  /\ (differs body payload "asset" ->
      no_delegate_call (fst (Verify.POST P (inr body) t0 t1)) = true).
Proof.
  intros Hwf verify_rejects settle_rejects. subst verify_rejects settle_rejects.
  open_request Hwf.
  unfold differs, agrees, shown_as,
    Verify.POST, Verify.POST_try, Settle.POST, Settle.POST_try.
  repeat split; intros;
    repeat match goal with
      | H : _ \/ _ |- _ => destruct H
      | H : _ /\ _ |- _ => destruct H
      end;
    flow; reflexivity.
Qed.

Lemma C5_mismatch_rejected_witness :
  let body := VObj [("x402Version", VNum 1); ("paymentHeader", VStr "other-scheme");
                    ("paymentRequirements", Fixture.requirements)] in
  let payload := Fixture.payment "upto" "vara-testnet" "native" Fixture.signed in
  decodes_to Fixture.rich body "vara-testnet" payload
  /\ differs body payload "scheme"
  /\ snd (Verify.POST Fixture.rich (inr body) 0 0)
     = {| status := 200;
          json_body :=
            {| Verify.isValid := false;
               Verify.invalidReason := VStr "Scheme mismatch: expected exact, got upto" |};
          headers := [] |}
  /\ snd (Settle.POST Fixture.rich (inr body) 0 0)
     = {| status := 200;
          json_body :=
            {| Settle.success := false;
               Settle.error := VStr "Scheme mismatch: expected exact, got upto";
               Settle.txHash := VNull; Settle.networkId := VNull |};
          headers := [] |}.
Proof.
  intros body payload.
  assert (Hwf : decodes_to Fixture.rich body "vara-testnet" payload).
  { repeat split; try reflexivity.
    exists "other-scheme", "other-scheme". repeat split; reflexivity. }
  split; [exact Hwf|]. split; [reflexivity|].
  exact (proj1 (C5_mismatch_rejected Fixture.rich body "vara-testnet" payload 0 0 Hwf)
               "exact" "upto" eq_refl (conj eq_refl eq_refl)).
Defined.

(* ================================================================== *)
(** ** The balance and presence gates of verify *)
(* ================================================================== *)

Section BalanceGate.

Variables (P : Platform) (body : value) (a : api P) (payload : value) (t0 t1 : Z).

Hypothesis Hwf : decodes_to P body a payload.
Hypothesis Hscheme : agrees body payload "scheme".
Hypothesis Hnetwork : agrees body payload "network".
Hypothesis Hasset : agrees body payload "asset".

(** [payload.payload.transaction] is read for its [address] before the
    presence gate: when it is [null] or missing the read raises and the
    response is the 500 of the outer catch. *)
Lemma verify_absent_transaction_faults (amount : Z) :
  BigInt (prop (prop body "paymentRequirements") "maxAmountRequired") = inr amount ->
  nullish (prop payload "payload") = false ->
  nullish (prop (prop payload "payload") "transaction") = true ->
  status (snd (Verify.POST P (inr body) t0 t1)) = 500
  /\ no_delegate_call (fst (Verify.POST P (inr body) t0 t1)) = true.
Proof.
  intros Ha Hp Ht. open_request Hwf.
  unfold agrees, Verify.POST, Verify.POST_try in *.
  split; flow; reflexivity.
Qed.

(** X13. With the balance gate passed, a falsy [signature] is rejected
    by the presence gate, with status 200. *)
Lemma verify_absent_signature_rejected (amount balance : Z) :
  BigInt (prop (prop body "paymentRequirements") "maxAmountRequired") = inr amount ->
  nullish (prop payload "payload") = false ->
  nullish (prop (prop payload "payload") "transaction") = false ->
  balanceOf P a (prop (prop (prop payload "payload") "transaction") "address")
            (prop payload "asset") = inr balance ->
  amount <= balance ->
  truthy (prop (prop payload "payload") "signature") = false ->
  snd (Verify.POST P (inr body) t0 t1)
  = {| status := 200;
       json_body :=
         {| Verify.isValid := false;
            Verify.invalidReason :=
              VStr "Invalid payload: missing signature or transaction" |};
       headers := [] |}.
Proof.
  intros Ha Hp Ht Hb Hle Hs. open_request Hwf.
  assert (Hlt : (balance <? amount) = false) by (apply Z.ltb_ge; lia).
  unfold agrees, Verify.POST, Verify.POST_try in *.
  flow. reflexivity.
Qed.

End BalanceGate.

Lemma verify_absent_signature_rejected_witness :
  let body := VObj [("x402Version", VNum 1); ("paymentHeader", VStr "no-signature");
                    ("paymentRequirements", Fixture.requirements)] in
  let payload := Fixture.payment "exact" "vara-testnet" "native"
                   (VObj [("transaction", Fixture.transaction)]) in
  decodes_to Fixture.rich body "vara-testnet" payload
  /\ snd (Verify.POST Fixture.rich (inr body) 0 0)
     = {| status := 200;
          json_body :=
            {| Verify.isValid := false;
               Verify.invalidReason :=
                 VStr "Invalid payload: missing signature or transaction" |};
          headers := [] |}.
Proof.
  intros body payload.
  assert (Hwf : decodes_to Fixture.rich body "vara-testnet" payload).
  { repeat split; try reflexivity.
    exists "no-signature", "no-signature". repeat split; reflexivity. }
  split; [exact Hwf|].
  apply (verify_absent_signature_rejected Fixture.rich body "vara-testnet" payload 0 0
           Hwf eq_refl eq_refl eq_refl 1000000000000 2000000000000);
    try reflexivity.
  discriminate.
Defined.

(** C4 (defect). A payload that passes the mismatch gates, carries a
    signature and lacks [payload.transaction] is not rejected with
    "Invalid payload: missing signature or transaction": the balance
    query reads [payload.transaction.address] first, the read raises,
    and verify answers with status 500. *)
Theorem C4_missing_transaction_faults :
  let request := Fixture.request (VNum 1) (VStr "no-transaction") Fixture.requirements in
  Verify.POST Fixture.rich request 0 0
  = ([EvUseApi (VStr "vara-testnet"); EvBase64 "no-transaction";
      EvJsonParse "no-transaction"],
     {| status := 500;
        json_body :=
          {| Verify.isValid := false;
             Verify.invalidReason :=
               VStr (message (read_fault VUndefined "address")) |};
        headers := [] |}).
Proof. reflexivity. Qed.

(** C7. For a verify request that reaches the balance gate, the amount
    is the integer [BigInt(maxAmountRequired)], compared exactly with
    the queried balance; when the balance is smaller the response is
    status 200 with "Insufficient asset balance: expected {amount}, got
    {balance}", where both numerals are exact: read back as integers
    they are the two numbers compared, whatever their size. *)
Theorem C7_insufficient_balance (P : Platform) (body : value) (a : api P)
    (payload : value) (amount balance : Z) (t0 t1 : Z) :
  reaches_balance_gate P body a payload amount balance ->
  balance < amount ->
  snd (Verify.POST P (inr body) t0 t1)
  = {| status := 200;
       json_body :=
         {| Verify.isValid := false;
            Verify.invalidReason :=
              VStr ("Insufficient asset balance: expected " ++ dec amount
                    ++ ", got " ++ dec balance) |};
       headers := [] |}
  /\ no_delegate_call (fst (Verify.POST P (inr body) t0 t1)) = true
  /\ BigInt (VStr (dec amount)) = inr amount
  /\ BigInt (VStr (dec balance)) = inr balance.
Proof.
  intros (Hwf & Hs & Hn & Ha & Hamount & Hp & Ht & Hb) Hlt.
  apply Z.ltb_lt in Hlt. open_request Hwf.
  unfold agrees, Verify.POST, Verify.POST_try in *.
  repeat split; try apply BigInt_dec; flow; reflexivity.
Qed.

Lemma C7_insufficient_balance_witness :
  let body := VObj [("x402Version", VNum 1); ("paymentHeader", VStr "good");
                    ("paymentRequirements", Fixture.requirements)] in
  let payload := Fixture.payment "exact" "vara-testnet" "native" Fixture.signed in
  let poor := Fixture.platform 500000000000 Fixture.valid Fixture.submitted in
  reaches_balance_gate poor body "vara-testnet" payload 1000000000000 500000000000
  /\ 500000000000 < 1000000000000
  /\ snd (Verify.POST poor (inr body) 0 0)
     = {| status := 200;
          json_body :=
            {| Verify.isValid := false;
               Verify.invalidReason :=
                 VStr "Insufficient asset balance: expected 1000000000000, got 500000000000" |};
          headers := [] |}.
Proof.
  intros body payload poor.
  assert (Hr : reaches_balance_gate poor body "vara-testnet" payload
                 1000000000000 500000000000).
  { repeat split; try reflexivity.
    exists "good", "good". repeat split; reflexivity. }
  assert (Hlt : 500000000000 < 1000000000000) by reflexivity.
  split; [exact Hr|]. split; [exact Hlt|].
  exact (proj1 (C7_insufficient_balance poor body "vara-testnet" payload
                  1000000000000 500000000000 0 0 Hr Hlt)).
Defined.

(* ================================================================== *)
(** ** The delegate and the responses around it *)
(* ================================================================== *)

(** Read the facts a trace membership gives, and close what they decide. *)
Ltac trace_facts :=
  repeat match goal with
    | H : In _ [] |- _ => destruct H
    | H : In _ (_ :: _) |- _ =>
        destruct H as [H | H]; [try discriminate H; try (injection H as; subst) |]
    end.

Lemma gate_passed (x y : bool) : negb x || negb y = false -> x = true /\ y = true.
Proof. destruct x, y; simpl; auto; discriminate. Qed.

Lemma strict_eq_num_inv (v : value) (n : Z) :
  strict_eq v (VNum n) = true -> v = VNum n.
Proof. destruct v; simpl; try discriminate. intros H. apply Z.eqb_eq in H. now subst. Qed.

Lemma strict_eq_str_inv (v : value) (s : string) :
  strict_eq v (VStr s) = true -> v = VStr s.
Proof.
  destruct v; simpl; try discriminate. intros H. apply String.eqb_eq in H. now subst.
Qed.

Lemma substring_receiver_inr (what : string) (v : value) (s : string) :
  substring_receiver what v = inr s -> v = VStr s.
Proof. destruct v; simpl; congruence. Qed.

(** Turn the tests a handler passed into the facts they establish. *)
Ltac gate_facts :=
  repeat match goal with
    | H : negb _ || negb _ = false |- _ =>
        let H1 := fresh "Hleft" in
        let H2 := fresh "Hright" in
        apply gate_passed in H; destruct H as [H1 H2]
    | H : negb (strict_eq _ (VNum _)) = false |- _ =>
        apply negb_false_iff, strict_eq_num_inv in H
    | H : negb (strict_eq _ (VStr _)) = false |- _ =>
        apply negb_false_iff, strict_eq_str_inv in H
    | H : negb (strict_eq _ _) = false |- _ => apply negb_false_iff in H
    | H : substring_receiver _ _ = inr _ |- _ => apply substring_receiver_inr in H
    | H : (_ <? _) = false |- _ => apply Z.ltb_ge in H
    end.

(** The response of a fault, with the duplicate test decided. *)
Ltac settle_fault :=
  try (unfold Settle.POST_catch;
       match goal with
       | |- context [Settle.is_duplicate ?m] => destruct (Settle.is_duplicate m)
       end; flow_done).

(** If verify called its delegate, every gate before it was passed, the
    calls made are the five of the full path, and the response is the
    delegate's verdict. *)
Lemma verify_delegate_inv (P : Platform) (req : Error + value) (t0 t1 : Z)
    (a : api P) (payload : value) :
  In (EvVerifyWithApi a payload) (fst (Verify.POST P req t0 t1)) ->
  exists body header text amount balance,
    req = inr body
    /\ reaches_balance_gate P body a payload amount balance
    /\ amount <= balance
    /\ truthy (prop (prop payload "payload") "signature") = true
    /\ truthy (prop (prop payload "payload") "transaction") = true
    /\ (prop body "paymentHeader" = VStr header
        /\ base64_utf8 P header = inr text
        /\ JSON_parse P text = inr payload)
    /\ fst (Verify.POST P req t0 t1)
       = [EvUseApi (prop (prop body "paymentRequirements") "network");
          EvBase64 header; EvJsonParse text;
          EvBalanceOf a (prop (prop (prop payload "payload") "transaction") "address")
                      (prop payload "asset");
          EvVerifyWithApi a payload]
    /\ snd (Verify.POST P req t0 t1)
       = verify_verdict (verifyWithApi P a payload) t0 t1.
Proof.
  unfold Verify.POST, Verify.POST_try. flow; intros Hin; trace_facts; gate_facts;
    match goal with
    | Hb : base64_utf8 P ?h = inr ?t, Ha : BigInt _ = inr ?am,
      Hq : balanceOf P _ _ _ = inr ?bal |- context [inr ?v = inr _] =>
        exists v, h, t, am, bal
    end;
    match goal with
    | Hc : verifyWithApi P _ _ = _ |- _ => rewrite Hc
    end;
    unfold verify_verdict, reaches_balance_gate, decodes_to, passes_request_gates, agrees;
    repeat match goal with
      | H : negb (vr_isValid ?r) = _ |- _ =>
          destruct (vr_isValid r); try discriminate H; clear H
      end;
    (repeat split; eauto 6).
Qed.

(** If settle called its delegate, every gate before it was passed, the
    calls made are the four of the full path, and the response is the
    delegate's verdict. *)
Lemma settle_delegate_inv (P : Platform) (req : Error + value) (t0 t1 : Z)
    (a : api P) (payload : value) (options : SettleOptions) :
  In (EvSettleWithApi a payload options) (fst (Settle.POST P req t0 t1)) ->
  exists body header text,
    req = inr body
    /\ options = {| waitForFinalization := false |}
    /\ decodes_to P body a payload
    /\ agrees body payload "scheme"
    /\ agrees body payload "network"
    /\ truthy (prop (prop payload "payload") "signature") = true
    /\ truthy (prop (prop payload "payload") "transaction") = true
    /\ (prop body "paymentHeader" = VStr header
        /\ base64_utf8 P header = inr text
        /\ JSON_parse P text = inr payload)
    /\ fst (Settle.POST P req t0 t1)
       = [EvUseApi (prop (prop body "paymentRequirements") "network");
          EvBase64 header; EvJsonParse text;
          EvSettleWithApi a payload options]
    /\ snd (Settle.POST P req t0 t1)
       = settle_verdict (settleWithApi P a payload options)
           (prop (prop body "paymentRequirements") "network") t0 t1.
Proof.
  unfold Settle.POST, Settle.POST_try. flow; intros Hin; trace_facts; gate_facts;
    match goal with
    | Hb : base64_utf8 P ?h = inr ?t |- context [inr ?v = inr _] => exists v, h, t
    end;
    match goal with
    | Hc : settleWithApi P _ _ _ = _ |- _ => rewrite Hc
    end;
    unfold settle_verdict, decodes_to, passes_request_gates, agrees, Settle.settleOptions;
    repeat match goal with
      | H : negb (sr_success ?r) = _ |- _ =>
          destruct (sr_success r); try discriminate H; clear H
      | H : to_string _ = _ |- _ => rewrite H; clear H
      end;
    (repeat split; eauto 6).
Qed.

Lemma verify_accepted_called (P : Platform) (req : Error + value) (t0 t1 : Z) :
  Verify.isValid (json_body (snd (Verify.POST P req t0 t1))) = true ->
  exists a payload, In (EvVerifyWithApi a payload) (fst (Verify.POST P req t0 t1)).
Proof.
  unfold Verify.POST, Verify.POST_try. flow; intros Hv; try discriminate Hv.
  do 2 eexists. simpl. do 4 right. left. reflexivity.
Qed.

Lemma settle_succeeded_called (P : Platform) (req : Error + value) (t0 t1 : Z) :
  Settle.success (json_body (snd (Settle.POST P req t0 t1))) = true ->
  exists a payload options,
    In (EvSettleWithApi a payload options) (fst (Settle.POST P req t0 t1)).
Proof.
  unfold Settle.POST, Settle.POST_try. flow; settle_fault; intros Hv; try discriminate Hv.
  do 3 eexists. simpl. do 3 right. left. reflexivity.
Qed.

(** C2 (counterexample). A delegate that reports the duplicate through
    its returned result, [{success: false, message: "INVALID_SEQ_NUMBER"}],
    is answered with status 200 and the delegate's text unmasked. *)
Lemma C2_returned_failure_not_masked :
  let reported : Error + SettleResult :=
    inr {| sr_success := false; sr_txHash := VUndefined;
           sr_message := VStr "INVALID_SEQ_NUMBER" |} in
  let P := Fixture.platform 0 Fixture.valid reported in
  let request := Fixture.request (VNum 1) (VStr "good") Fixture.requirements in
  Settle.is_duplicate "INVALID_SEQ_NUMBER" = true
  /\ no_delegate_call (fst (Settle.POST P request 0 0)) = false
  /\ snd (Settle.POST P request 0 0)
     = {| status := 200;
          json_body := {| Settle.success := false;
                          Settle.error := VStr "INVALID_SEQ_NUMBER";
                          Settle.txHash := VNull; Settle.networkId := VNull |};
          headers := [] |}
  /\ status (snd (Settle.POST P request 0 0)) <> 409.
Proof. repeat split; try reflexivity. vm_compute. discriminate. Qed.

(** C2 (amended). When the settlement delegate is called and throws an
    error whose message contains "SEQUENCE_NUMBER_TOO_OLD",
    "INVALID_SEQ_NUMBER" or "already submitted", settle answers 409
    with [{success: false, error: "Transaction already used",
    txHash: null, networkId: null}]; when instead the delegate returns
    [{success: false, message}], settle answers 200 with that message
    as [error], whatever its text. *)
Theorem C2_thrown_is_409_returned_is_forwarded (P : Platform) (req : Error + value)
    (t0 t1 : Z) (a : api P) (payload : value) (options : SettleOptions) :
  In (EvSettleWithApi a payload options) (fst (Settle.POST P req t0 t1)) ->
  (forall e,
      settleWithApi P a payload options = inl e ->
      str_includes "SEQUENCE_NUMBER_TOO_OLD" (message e) = true
      \/ str_includes "INVALID_SEQ_NUMBER" (message e) = true
      \/ str_includes "already submitted" (message e) = true ->
      snd (Settle.POST P req t0 t1)
      = {| status := 409;
           json_body := {| Settle.success := false;
                           Settle.error := VStr "Transaction already used";
                           Settle.txHash := VNull; Settle.networkId := VNull |};
           headers := [] |})
  /\ (forall r,
         settleWithApi P a payload options = inr r ->
         sr_success r = false ->
         snd (Settle.POST P req t0 t1)
         = {| status := 200;
              json_body := {| Settle.success := false; Settle.error := sr_message r;
                              Settle.txHash := VNull; Settle.networkId := VNull |};
              headers := [] |}).
Proof.
  intros Hin.
  destruct (settle_delegate_inv P req t0 t1 a payload options Hin)
    as (body & header & text & _ & _ & _ & _ & _ & _ & _ & _ & _ & ->).
  split.
  - intros e He Hdup. rewrite He. unfold settle_verdict, Settle.POST_catch.
    assert (Hd : Settle.is_duplicate (message e) = true).
    { unfold Settle.is_duplicate. destruct Hdup as [-> | [-> | ->]];
        rewrite ?orb_true_r; reflexivity. }
    now rewrite Hd.
  - intros r Hr Hs. rewrite Hr. unfold settle_verdict. now rewrite Hs.
Qed.

Lemma C2_thrown_is_409_returned_is_forwarded_witness :
  let thrown : Error + SettleResult := inl (mkError "Error" "INVALID_SEQ_NUMBER") in
  let P := Fixture.platform 0 Fixture.valid thrown in
  let request := Fixture.request (VNum 1) (VStr "good") Fixture.requirements in
  snd (Settle.POST P request 0 0)
  = {| status := 409;
       json_body := {| Settle.success := false;
                       Settle.error := VStr "Transaction already used";
                       Settle.txHash := VNull; Settle.networkId := VNull |};
       headers := [] |}.
Proof.
  intros thrown P request.
  apply (proj1 (C2_thrown_is_409_returned_is_forwarded P request 0 0 "vara-testnet"
                  (Fixture.payment "exact" "vara-testnet" "native" Fixture.signed)
                  Settle.settleOptions
                  ltac:(simpl; right; right; right; left; reflexivity))
               (mkError "Error" "INVALID_SEQ_NUMBER")).
  - reflexivity.
  - right. left. reflexivity.
Defined.

(** C8. A verify request that passes every gate (it is well formed,
    scheme, network and asset agree, the balance is at least the
    amount, signature and transaction are present) and whose delegate
    answers [isValid: true] is answered with exactly [{isValid: true,
    invalidReason: null}], status 200 and the [X-Verification-Time]
    header carrying the elapsed milliseconds. On both endpoints the
    elapsed-time header is on the success response and on no other:
    every response whose [isValid] / [success] is false has no header
    set. *)
Theorem C8_timing_header (P : Platform) (t0 t1 : Z) :
  (forall body a payload amount balance r,
      reaches_balance_gate P body a payload amount balance ->
      amount <= balance ->
      truthy (prop (prop payload "payload") "signature") = true ->
      truthy (prop (prop payload "payload") "transaction") = true ->
      verifyWithApi P a payload = inr r ->
      vr_isValid r = true ->
      snd (Verify.POST P (inr body) t0 t1)
      = {| status := 200;
           json_body := {| Verify.isValid := true; Verify.invalidReason := VNull |};
           headers := [("X-Verification-Time", dec (t1 - t0))] |})
  /\ (forall req,
         (Verify.isValid (json_body (snd (Verify.POST P req t0 t1))) = false ->
          headers (snd (Verify.POST P req t0 t1)) = [])
         /\ (Verify.isValid (json_body (snd (Verify.POST P req t0 t1))) = true ->
             headers (snd (Verify.POST P req t0 t1))
             = [("X-Verification-Time", dec (t1 - t0))]))
  /\ (forall req,
         (Settle.success (json_body (snd (Settle.POST P req t0 t1))) = false ->
          headers (snd (Settle.POST P req t0 t1)) = [])
         /\ (Settle.success (json_body (snd (Settle.POST P req t0 t1))) = true ->
             headers (snd (Settle.POST P req t0 t1))
             = [("X-Settlement-Time", dec (t1 - t0))])).
Proof.
  split; [|split].
  - intros body a payload amount balance r
      (Hwf & Hs & Hn & Ha & Hamount & Hp & Ht & Hb) Hle Hsig Htx Hr Hvalid.
    assert (Hlt : (balance <? amount) = false) by (apply Z.ltb_ge; lia).
    open_request Hwf.
    unfold agrees, Verify.POST, Verify.POST_try in *.
    flow. reflexivity.
  - intros req. unfold Verify.POST, Verify.POST_try. flow;
      (split; intros; try reflexivity; discriminate).
  - intros req. unfold Settle.POST, Settle.POST_try. flow; settle_fault;
      (split; intros; try reflexivity; discriminate).
Qed.

Lemma C8_timing_header_witness :
  let body := VObj [("x402Version", VNum 1); ("paymentHeader", VStr "good");
                    ("paymentRequirements", Fixture.requirements)] in
  let payload := Fixture.payment "exact" "vara-testnet" "native" Fixture.signed in
  let exact := Fixture.platform 1000000000000 Fixture.valid Fixture.submitted in
  reaches_balance_gate exact body "vara-testnet" payload 1000000000000 1000000000000
  /\ snd (Verify.POST exact (inr body) 10 35)
     = {| status := 200;
          json_body := {| Verify.isValid := true; Verify.invalidReason := VNull |};
          headers := [("X-Verification-Time", "25")] |}.
Proof.
  intros body payload exact.
  assert (Hr : reaches_balance_gate exact body "vara-testnet" payload
                 1000000000000 1000000000000).
  { repeat split; try reflexivity.
    exists "good", "good". repeat split; reflexivity. }
  split; [exact Hr|].
  apply (proj1 (C8_timing_header exact 10 35) body "vara-testnet" payload
           1000000000000 1000000000000
           {| vr_isValid := true; vr_invalidReason := VNull |} Hr);
    reflexivity.
Defined.

(** C10. A settle response with [success: true] carries [error: null],
    the [txHash] the settlement delegate returned, and as [networkId]
    the request's [paymentRequirements.network], a member of the valid
    networks; a settle response with [success: false] has [txHash] and
    [networkId] both [null]. *)
Theorem C10_settle_response_fields (P : Platform) (req : Error + value) (t0 t1 : Z) :
  let response := json_body (snd (Settle.POST P req t0 t1)) in
  (Settle.success response = true ->
   Settle.error response = VNull
   /\ exists body a payload result,
        req = inr body
        /\ In (EvSettleWithApi a payload Settle.settleOptions)
              (fst (Settle.POST P req t0 t1))
        /\ settleWithApi P a payload Settle.settleOptions = inr result
        /\ sr_success result = true
        /\ Settle.txHash response = sr_txHash result
        /\ Settle.networkId response = prop (prop body "paymentRequirements") "network"
        /\ includes (validVaraNetworks P) (Settle.networkId response) = true)
  /\ (Settle.success response = false ->
      Settle.txHash response = VNull /\ Settle.networkId response = VNull).
Proof.
  intros response. subst response.
  unfold Settle.POST, Settle.POST_try. flow; settle_fault;
    (split; intros Hs; [try discriminate Hs | try discriminate Hs; split; reflexivity]).
  split; [reflexivity|].
  match goal with
  | H : negb (truthy ?n) || negb (includes _ ?n) = false |- _ =>
      destruct (gate_passed _ _ H) as [_ Hin]
  end.
  match goal with
  | H : settleWithApi P ?a ?p _ = inr ?r |- context [inr ?v = inr _] =>
      exists v, a, p, r
  end.
  repeat split; auto.
  - simpl. do 3 right. left. reflexivity.
  - match goal with H : negb (sr_success _) = false |- _ =>
      now apply negb_false_iff in H end.
Qed.

Lemma C10_settle_response_fields_witness :
  let request := Fixture.request (VNum 1) (VStr "good") Fixture.requirements in
  let response := json_body (snd (Settle.POST Fixture.rich request 10 35)) in
  Settle.success response = true
  /\ Settle.error response = VNull
  /\ Settle.txHash response = VStr "0x5e77"
  /\ Settle.networkId response = VStr "vara-testnet".
Proof.
  intros request response.
  assert (Hs : Settle.success response = true) by reflexivity.
  split; [exact Hs|].
  split; [exact (proj1 (proj1 (C10_settle_response_fields Fixture.rich request 10 35) Hs))|].
  split; reflexivity.
Defined.

(* ================================================================== *)
(** ** Further properties: the gates before decoding *)
(* ================================================================== *)

Lemma substring_receiver_other (v : value) :
  truthy v = true -> (forall s, v <> VStr s) ->
  substring_receiver "paymentHeader" v
  = inl (TypeError "paymentHeader.substring is not a function").
Proof.
  intros Ht Hs. destruct v; simpl in *; try discriminate; try reflexivity.
  now destruct (Hs s).
Qed.

(** Unpack [passes_request_gates]. *)
Ltac open_gates_of H :=
  let Ht := fresh "Htruthy" in
  destruct H as (? & Ht & ? & ? & ? & ?);
  pose proof (truthy_prop_not_nullish _ _ Ht).

(** X3. A scheme other than the supported one, and that converts to a
    string, is rejected with status 200 and the message "Unsupported
    scheme: " followed by that string, before any collaborator is
    called. *)
Theorem scheme_gate (P : Platform) (body : value) (shown : string) (t0 t1 : Z) :
  let reqs := prop body "paymentRequirements" in
  prop body "x402Version" = VNum (X402_VERSION P) ->
  truthy (prop body "paymentHeader") = true ->
  truthy reqs = true ->
  strict_eq (prop reqs "scheme") (VStr (X402_SCHEME P)) = false ->
  to_string (prop reqs "scheme") = inr shown ->
  Verify.POST P (inr body) t0 t1
  = ([], {| status := 200;
            json_body :=
              {| Verify.isValid := false;
                 Verify.invalidReason := VStr ("Unsupported scheme: " ++ shown) |};
            headers := [] |})
  /\ Settle.POST P (inr body) t0 t1
     = ([], {| status := 200;
               json_body :=
                 {| Settle.success := false;
                    Settle.error := VStr ("Unsupported scheme: " ++ shown);
                    Settle.txHash := VNull; Settle.networkId := VNull |};
               headers := [] |}).
Proof.
  intros reqs Hv Hh Hr Hs Hshown. subst reqs.
  pose proof (truthy_prop_not_nullish _ _ Hh).
  unfold Verify.POST, Verify.POST_try, Settle.POST, Settle.POST_try.
  split; flow; reflexivity.
Qed.

Lemma scheme_gate_witness :
  let reqs := VObj [("scheme", VStr "upto"); ("network", VStr "vara-testnet")] in
  let body := VObj [("x402Version", VNum 1); ("paymentHeader", VStr "good");
                    ("paymentRequirements", reqs)] in
  Verify.POST Fixture.rich (inr body) 0 0
  = ([], {| status := 200;
            json_body :=
              {| Verify.isValid := false;
                 Verify.invalidReason := VStr "Unsupported scheme: upto" |};
            headers := [] |})
  /\ Settle.POST Fixture.rich (inr body) 0 0
     = ([], {| status := 200;
               json_body :=
                 {| Settle.success := false;
                    Settle.error := VStr "Unsupported scheme: upto";
                    Settle.txHash := VNull; Settle.networkId := VNull |};
               headers := [] |}).
Proof.
  intros reqs body.
  exact (scheme_gate Fixture.rich body "upto" 0 0
           eq_refl eq_refl eq_refl eq_refl eq_refl).
Defined.

(** X4. A network that is empty, missing or outside [validVaraNetworks],
    and that converts to a string, is rejected with status 200 before a
    chain API handle is requested; the message shows that string and
    the valid networks joined by commas, in their order. *)
Theorem network_gate (P : Platform) (body : value) (shown : string) (t0 t1 : Z) :
  let reqs := prop body "paymentRequirements" in
  let network := prop reqs "network" in
  prop body "x402Version" = VNum (X402_VERSION P) ->
  truthy (prop body "paymentHeader") = true ->
  truthy reqs = true ->
  prop reqs "scheme" = VStr (X402_SCHEME P) ->
  truthy network && includes (validVaraNetworks P) network = false ->
  to_string network = inr shown ->
  let reason := "Invalid Vara network: " ++ shown
                ++ ". Expected one of " ++ join "," (validVaraNetworks P) in
  Verify.POST P (inr body) t0 t1
  = ([], {| status := 200;
            json_body := {| Verify.isValid := false;
                            Verify.invalidReason := VStr reason |};
            headers := [] |})
  /\ Settle.POST P (inr body) t0 t1
     = ([], {| status := 200;
               json_body := {| Settle.success := false; Settle.error := VStr reason;
                               Settle.txHash := VNull; Settle.networkId := VNull |};
               headers := [] |}).
Proof.
  intros reqs network Hv Hh Hr Hs Hn Hshown reason. subst reqs network reason.
  pose proof (truthy_prop_not_nullish _ _ Hh).
  assert (Hc : negb (truthy (prop (prop body "paymentRequirements") "network"))
               || negb (includes (validVaraNetworks P)
                          (prop (prop body "paymentRequirements") "network")) = true).
  { rewrite <- negb_andb, Hn. reflexivity. }
  unfold Verify.POST, Verify.POST_try, Settle.POST, Settle.POST_try.
  split; flow; reflexivity.
Qed.

Lemma network_gate_witness :
  let reqs := VObj [("scheme", VStr "exact"); ("network", VStr "kusama")] in
  let body := VObj [("x402Version", VNum 1); ("paymentHeader", VStr "good");
                    ("paymentRequirements", reqs)] in
  Verify.POST Fixture.rich (inr body) 0 0
  = ([], {| status := 200;
            json_body :=
              {| Verify.isValid := false;
                 Verify.invalidReason :=
                   VStr "Invalid Vara network: kusama. Expected one of vara-testnet,vara" |};
            headers := [] |})
  /\ Settle.POST Fixture.rich (inr body) 0 0
     = ([], {| status := 200;
               json_body :=
                 {| Settle.success := false;
                    Settle.error :=
                      VStr "Invalid Vara network: kusama. Expected one of vara-testnet,vara";
                    Settle.txHash := VNull; Settle.networkId := VNull |};
               headers := [] |}).
Proof.
  intros reqs body.
  exact (network_gate Fixture.rich body "kusama" 0 0
           eq_refl eq_refl eq_refl eq_refl eq_refl eq_refl).
Defined.

(** X6. When [useApi] rejects, nothing is decoded: verify answers 500 with
    the fault's message, settle answers through its catch, so 409 when
    the message carries a duplicate marker and 500 otherwise. *)
Theorem handle_acquisition_fault (P : Platform) (body : value) (e : Error)
    (t0 t1 : Z) :
  let network := prop (prop body "paymentRequirements") "network" in
  passes_request_gates P body ->
  useApi P network = inl e ->
  Verify.POST P (inr body) t0 t1
  = ([EvUseApi network],
     {| status := 500;
        json_body := {| Verify.isValid := false;
                        Verify.invalidReason :=
                          VStr (str_or (message e) (Error_toString e)) |};
        headers := [] |})
  /\ Settle.POST P (inr body) t0 t1 = ([EvUseApi network], Settle.POST_catch e)
  /\ status (Settle.POST_catch e)
     = (if Settle.is_duplicate (message e) then 409 else 500).
Proof.
  intros network Hg Hu. subst network. open_gates_of Hg.
  unfold Verify.POST, Verify.POST_try, Settle.POST, Settle.POST_try.
  repeat split; flow; try reflexivity.
  unfold Settle.POST_catch. now destruct (Settle.is_duplicate (message e)).
Qed.

Lemma handle_acquisition_fault_witness :
  let down : Platform :=
    {| api := string; X402_VERSION := 1; X402_SCHEME := "exact";
       validVaraNetworks := ["vara-testnet"; "vara"];
       useApi := fun _ => inl (mkError "Error" "connect ECONNREFUSED");
       balanceOf := fun _ _ _ => inr 0;
       verifyWithApi := fun _ _ => Fixture.valid;
       settleWithApi := fun _ _ _ => Fixture.submitted;
       base64_utf8 := fun h => inr h;
       JSON_parse := fun _ => inr VNull |} in
  let body := VObj [("x402Version", VNum 1); ("paymentHeader", VStr "good");
                    ("paymentRequirements", Fixture.requirements)] in
  passes_request_gates down body
  /\ status (snd (Verify.POST down (inr body) 0 0)) = 500
  /\ status (snd (Settle.POST down (inr body) 0 0)) = 500.
Proof.
  intros down body.
  assert (Hg : passes_request_gates down body) by (repeat split; reflexivity).
  split; [exact Hg|].
  pose proof (handle_acquisition_fault down body
                (mkError "Error" "connect ECONNREFUSED") 0 0 Hg eq_refl)
    as (Hv & Hs & _).
  split; [rewrite Hv | rewrite Hs]; reflexivity.
Defined.

(** X7. A truthy [paymentHeader] that is not a string (a number, [true],
    an array, an object) passes the required-fields gate, the chain API
    handle is acquired, and only then the handler faults: status 500 on
    both endpoints, nothing decoded. *)
Theorem non_string_header_faults (P : Platform) (body : value) (a : api P)
    (t0 t1 : Z) :
  let network := prop (prop body "paymentRequirements") "network" in
  passes_request_gates P body ->
  (forall s, prop body "paymentHeader" <> VStr s) ->
  useApi P network = inr a ->
  (fst (Verify.POST P (inr body) t0 t1) = [EvUseApi network]
   /\ status (snd (Verify.POST P (inr body) t0 t1)) = 500)
  /\ (fst (Settle.POST P (inr body) t0 t1) = [EvUseApi network]
      /\ status (snd (Settle.POST P (inr body) t0 t1)) = 500).
Proof.
  intros network Hg Hs Hu. subst network.
  pose proof (substring_receiver_other _ (proj1 (proj2 Hg)) Hs) as Hsub.
  open_gates_of Hg.
  unfold Verify.POST, Verify.POST_try, Settle.POST, Settle.POST_try.
  repeat split; flow; reflexivity.
Qed.

Lemma non_string_header_faults_witness :
  let body := VObj [("x402Version", VNum 1); ("paymentHeader", VNum 7);
                    ("paymentRequirements", Fixture.requirements)] in
  passes_request_gates Fixture.rich body
  /\ status (snd (Verify.POST Fixture.rich (inr body) 0 0)) = 500
  /\ status (snd (Settle.POST Fixture.rich (inr body) 0 0)) = 500.
Proof.
  intros body.
  assert (Hg : passes_request_gates Fixture.rich body) by (repeat split; reflexivity).
  assert (Hs : forall s, prop body "paymentHeader" <> VStr s) by (intros s; discriminate).
  split; [exact Hg|].
  pose proof (non_string_header_faults Fixture.rich body "vara-testnet" 0 0
                Hg Hs eq_refl) as ((_ & Hv) & (_ & Hse)).
  split; assumption.
Defined.

(* ================================================================== *)
(** ** Further properties: decoding and the gates after it *)
(* ================================================================== *)

(** X11. A header that decodes to JSON [null] passes the decoder and then
    faults on the first read of the payload: status 500 on both
    endpoints, no balance query and no delegate call. *)
Theorem null_payload_faults (P : Platform) (body : value) (a : api P)
    (header text : string) (payload : value) (t0 t1 : Z) :
  let network := prop (prop body "paymentRequirements") "network" in
  passes_request_gates P body ->
  useApi P network = inr a ->
  prop body "paymentHeader" = VStr header ->
  base64_utf8 P header = inr text ->
  JSON_parse P text = inr payload ->
  nullish payload = true ->
  let trace := [EvUseApi network; EvBase64 header; EvJsonParse text] in
  (fst (Verify.POST P (inr body) t0 t1) = trace
   /\ status (snd (Verify.POST P (inr body) t0 t1)) = 500)
  /\ (fst (Settle.POST P (inr body) t0 t1) = trace
      /\ status (snd (Settle.POST P (inr body) t0 t1)) = 500).
Proof.
  intros network Hg Hu Hh Hb Hj Hn trace. subst network trace. open_gates_of Hg.
  unfold Verify.POST, Verify.POST_try, Settle.POST, Settle.POST_try.
  repeat split; flow; try reflexivity.
  destruct payload; try discriminate Hn; reflexivity.
Qed.

Lemma null_payload_faults_witness :
  let nulls : Platform :=
    {| api := string; X402_VERSION := 1; X402_SCHEME := "exact";
       validVaraNetworks := ["vara-testnet"; "vara"];
       useApi := fun n => inr (Fixture.handle n);
       balanceOf := fun _ _ _ => inr 0;
       verifyWithApi := fun _ _ => Fixture.valid;
       settleWithApi := fun _ _ _ => Fixture.submitted;
       base64_utf8 := fun _ => inr "null";
       JSON_parse := fun _ => inr VNull |} in
  let body := VObj [("x402Version", VNum 1); ("paymentHeader", VStr "bnVsbA==");
                    ("paymentRequirements", Fixture.requirements)] in
  passes_request_gates nulls body
  /\ status (snd (Verify.POST nulls (inr body) 0 0)) = 500
  /\ status (snd (Settle.POST nulls (inr body) 0 0)) = 500.
Proof.
  intros nulls body.
  assert (Hg : passes_request_gates nulls body) by (repeat split; reflexivity).
  split; [exact Hg|].
  pose proof (null_payload_faults nulls body "vara-testnet" "bnVsbA==" "null" VNull
                0 0 Hg eq_refl eq_refl eq_refl eq_refl eq_refl)
    as ((_ & Hv) & (_ & Hs)).
  split; assumption.
Defined.

(** X12. When [BigInt(maxAmountRequired)] raises (the field is missing, or
    is not an integer literal), verify answers 500 with that fault
    without querying the balance or calling the delegate. *)
Theorem amount_conversion_fault (P : Platform) (body : value) (a : api P)
    (payload : value) (e : Error) (t0 t1 : Z) :
  decodes_to P body a payload ->
  agrees body payload "scheme" ->
  agrees body payload "network" ->
  agrees body payload "asset" ->
  BigInt (prop (prop body "paymentRequirements") "maxAmountRequired") = inl e ->
  snd (Verify.POST P (inr body) t0 t1) = Verify.POST_catch e
  /\ existsb is_balance_query (fst (Verify.POST P (inr body) t0 t1)) = false
  /\ no_delegate_call (fst (Verify.POST P (inr body) t0 t1)) = true.
Proof.
  intros Hwf Hs Hn Ha Hb. open_request Hwf.
  unfold agrees, Verify.POST, Verify.POST_try in *.
  repeat split; flow; reflexivity.
Qed.

Lemma amount_conversion_fault_witness :
  let reqs := VObj [("scheme", VStr "exact"); ("network", VStr "vara-testnet");
                    ("maxAmountRequired", VStr "1.5"); ("asset", VStr "native")] in
  let body := VObj [("x402Version", VNum 1); ("paymentHeader", VStr "good");
                    ("paymentRequirements", reqs)] in
  let payload := Fixture.payment "exact" "vara-testnet" "native" Fixture.signed in
  decodes_to Fixture.rich body "vara-testnet" payload
  /\ snd (Verify.POST Fixture.rich (inr body) 0 0)
     = {| status := 500;
          json_body := {| Verify.isValid := false;
                          Verify.invalidReason :=
                            VStr "Cannot convert 1.5 to a BigInt" |};
          headers := [] |}.
Proof.
  intros reqs body payload.
  assert (Hwf : decodes_to Fixture.rich body "vara-testnet" payload).
  { repeat split; try reflexivity.
    exists "good", "good". repeat split; reflexivity. }
  split; [exact Hwf|].
  exact (proj1 (amount_conversion_fault Fixture.rich body "vara-testnet" payload
                  (SyntaxError "Cannot convert 1.5 to a BigInt") 0 0
                  Hwf eq_refl eq_refl eq_refl eq_refl)).
Defined.

(** X15. On the settle path a payload whose inner [payload] is an object
    lacking [signature] or [transaction] is rejected with status 200
    and the delegate is not called: settle, unlike verify, reads neither
    field before the presence gate. *)
Theorem settle_presence_gate (P : Platform) (body : value) (a : api P)
    (payload : value) (t0 t1 : Z) :
  let inner := prop payload "payload" in
  decodes_to P body a payload ->
  agrees body payload "scheme" ->
  agrees body payload "network" ->
  nullish inner = false ->
  truthy (prop inner "signature") && truthy (prop inner "transaction") = false ->
  snd (Settle.POST P (inr body) t0 t1)
  = {| status := 200;
       json_body :=
         {| Settle.success := false;
            Settle.error := VStr "Invalid payload: missing signature or transaction";
            Settle.txHash := VNull; Settle.networkId := VNull |};
       headers := [] |}
  /\ no_delegate_call (fst (Settle.POST P (inr body) t0 t1)) = true.
Proof.
  intros inner Hwf Hs Hn Hi Hp. subst inner. open_request Hwf.
  assert (Hc : negb (truthy (prop (prop payload "payload") "signature"))
               || negb (truthy (prop (prop payload "payload") "transaction")) = true).
  { rewrite <- negb_andb, Hp. reflexivity. }
  unfold agrees, Settle.POST, Settle.POST_try in *.
  split; flow; reflexivity.
Qed.

Lemma settle_presence_gate_witness :
  let body := VObj [("x402Version", VNum 1); ("paymentHeader", VStr "no-transaction");
                    ("paymentRequirements", Fixture.requirements)] in
  let payload := Fixture.payment "exact" "vara-testnet" "native"
                   (VObj [("signature", VStr "0xa1b2")]) in
  decodes_to Fixture.rich body "vara-testnet" payload
  /\ snd (Settle.POST Fixture.rich (inr body) 0 0)
     = {| status := 200;
          json_body :=
            {| Settle.success := false;
               Settle.error := VStr "Invalid payload: missing signature or transaction";
               Settle.txHash := VNull; Settle.networkId := VNull |};
          headers := [] |}.
Proof.
  intros body payload.
  assert (Hwf : decodes_to Fixture.rich body "vara-testnet" payload).
  { repeat split; try reflexivity.
    exists "no-transaction", "no-transaction". repeat split; reflexivity. }
  split; [exact Hwf|].
  exact (proj1 (settle_presence_gate Fixture.rich body "vara-testnet" payload 0 0
                  Hwf eq_refl eq_refl eq_refl eq_refl)).
Defined.

(** X14. A decoded payload without an inner [payload] object makes both
    handlers fault on the read below it (settle on [signature], verify
    on [transaction]): status 500, no delegate call. *)
Theorem inner_payload_absent_faults (P : Platform) (body : value) (a : api P)
    (payload : value) (t0 t1 : Z) :
  decodes_to P body a payload ->
  agrees body payload "scheme" ->
  agrees body payload "network" ->
  nullish (prop payload "payload") = true ->
  (status (snd (Settle.POST P (inr body) t0 t1)) = 500
   /\ no_delegate_call (fst (Settle.POST P (inr body) t0 t1)) = true)
  /\ (agrees body payload "asset" ->
      forall amount,
        BigInt (prop (prop body "paymentRequirements") "maxAmountRequired")
        = inr amount ->
        status (snd (Verify.POST P (inr body) t0 t1)) = 500
        /\ existsb is_balance_query (fst (Verify.POST P (inr body) t0 t1)) = false
        /\ no_delegate_call (fst (Verify.POST P (inr body) t0 t1)) = true).
Proof.
  intros Hwf Hs Hn Hi. open_request Hwf.
  unfold agrees, Verify.POST, Verify.POST_try, Settle.POST, Settle.POST_try in *.
  repeat split; intros; flow; try reflexivity.
  destruct (prop payload "payload"); try discriminate Hi; reflexivity.
Qed.

Lemma inner_payload_absent_faults_witness :
  let bare : Platform :=
    {| api := string; X402_VERSION := 1; X402_SCHEME := "exact";
       validVaraNetworks := ["vara-testnet"; "vara"];
       useApi := fun n => inr (Fixture.handle n);
       balanceOf := fun _ _ _ => inr 0;
       verifyWithApi := fun _ _ => Fixture.valid;
       settleWithApi := fun _ _ _ => Fixture.submitted;
       base64_utf8 := fun h => inr h;
       JSON_parse := fun _ =>
         inr (VObj [("scheme", VStr "exact"); ("network", VStr "vara-testnet");
                    ("asset", VStr "native")]) |} in
  let body := VObj [("x402Version", VNum 1); ("paymentHeader", VStr "e30=");
                    ("paymentRequirements", Fixture.requirements)] in
  status (snd (Settle.POST bare (inr body) 0 0)) = 500
  /\ status (snd (Verify.POST bare (inr body) 0 0)) = 500.
Proof.
  intros bare body.
  set (payload := VObj [("scheme", VStr "exact"); ("network", VStr "vara-testnet");
                        ("asset", VStr "native")]).
  assert (Hwf : decodes_to bare body "vara-testnet" payload).
  { repeat split; try reflexivity.
    exists "e30=", "e30=". repeat split; reflexivity. }
  pose proof (inner_payload_absent_faults bare body "vara-testnet" payload 0 0
                Hwf eq_refl eq_refl eq_refl) as ((Hs & _) & Hv).
  split; [exact Hs|].
  exact (proj1 (Hv eq_refl 1000000000000 eq_refl)).
Defined.

(** X16. The settle success path: a well-formed request that agrees with
    the requirements on scheme and network, carries a signature and a
    transaction, whose settlement the delegate accepts and whose
    transaction hash converts to a string (it is printed in a template
    literal before the response is built), is answered 200 with the
    delegate's hash, the requested network and the [X-Settlement-Time]
    header. Neither the asset nor any balance enters: the trace is the
    handle, the two decoding steps and the one settlement call with
    [waitForFinalization: false]. *)
Theorem settle_success_path (P : Platform) (body : value) (a : api P)
    (payload : value) (result : SettleResult) (shown : string) (t0 t1 : Z) :
  let inner := prop payload "payload" in
  decodes_to P body a payload ->
  agrees body payload "scheme" ->
  agrees body payload "network" ->
  nullish inner = false ->
  truthy (prop inner "signature") = true ->
  truthy (prop inner "transaction") = true ->
  settleWithApi P a payload {| waitForFinalization := false |} = inr result ->
  sr_success result = true ->
  to_string (sr_txHash result) = inr shown ->
  snd (Settle.POST P (inr body) t0 t1)
  = {| status := 200;
       json_body :=
         {| Settle.success := true; Settle.error := VNull;
            Settle.txHash := sr_txHash result;
            Settle.networkId := prop (prop body "paymentRequirements") "network" |};
       headers := [("X-Settlement-Time", dec (t1 - t0))] |}
  /\ existsb is_balance_query (fst (Settle.POST P (inr body) t0 t1)) = false
  /\ List.length (fst (Settle.POST P (inr body) t0 t1)) = 4%nat.
Proof.
  intros inner Hwf Hs Hn Hi Hsig Htx Hcall Hok Hshown. subst inner. open_request Hwf.
  unfold agrees, Settle.POST, Settle.POST_try, Settle.settleOptions in *.
  repeat split; flow; reflexivity.
Qed.

Lemma settle_success_path_witness :
  let body := VObj [("x402Version", VNum 1); ("paymentHeader", VStr "other-asset");
                    ("paymentRequirements", Fixture.requirements)] in
  let payload := Fixture.payment "exact" "vara-testnet" "0x01" Fixture.signed in
  let broke := Fixture.platform 0 Fixture.valid Fixture.submitted in
  decodes_to broke body "vara-testnet" payload
  /\ differs body payload "asset"
  /\ snd (Settle.POST broke (inr body) 10 35)
     = {| status := 200;
          json_body :=
            {| Settle.success := true; Settle.error := VNull;
               Settle.txHash := VStr "0x5e77";
               Settle.networkId := VStr "vara-testnet" |};
          headers := [("X-Settlement-Time", "25")] |}.
Proof.
  intros body payload broke.
  assert (Hwf : decodes_to broke body "vara-testnet" payload).
  { repeat split; try reflexivity.
    exists "other-asset", "other-asset". repeat split; reflexivity. }
  split; [exact Hwf|]. split; [reflexivity|].
  exact (proj1 (settle_success_path broke body "vara-testnet" payload
                  {| sr_success := true; sr_txHash := VStr "0x5e77";
                     sr_message := VUndefined |} "0x5e77" 10 35
                  Hwf eq_refl eq_refl eq_refl eq_refl eq_refl eq_refl eq_refl
                  eq_refl)).
Defined.

(* ================================================================== *)
(** ** Further properties: what a call to the delegate implies *)
(* ================================================================== *)

(** X17. A verdict of "invalid" from the verification delegate is forwarded
    as it is: status 200, [isValid: false], the delegate's own
    [invalidReason], no timing header. *)
Theorem verify_delegate_invalid (P : Platform) (req : Error + value) (t0 t1 : Z)
    (a : api P) (payload : value) (r : VerifyResult) :
  In (EvVerifyWithApi a payload) (fst (Verify.POST P req t0 t1)) ->
  verifyWithApi P a payload = inr r ->
  vr_isValid r = false ->
  snd (Verify.POST P req t0 t1)
  = {| status := 200;
       json_body := {| Verify.isValid := false;
                       Verify.invalidReason := vr_invalidReason r |};
       headers := [] |}.
Proof.
  intros Hin Hr Hv.
  destruct (verify_delegate_inv P req t0 t1 a payload Hin)
    as (body & header & text & amount & balance & _ & _ & _ & _ & _ & _ & _ & ->).
  rewrite Hr. unfold verify_verdict. now rewrite Hv.
Qed.

Lemma verify_delegate_invalid_witness :
  let verdict := {| vr_isValid := false; vr_invalidReason := VStr "Bad signature" |} in
  let P := Fixture.platform 2000000000000 (inr verdict) Fixture.submitted in
  let request := Fixture.request (VNum 1) (VStr "good") Fixture.requirements in
  snd (Verify.POST P request 0 0)
  = {| status := 200;
       json_body := {| Verify.isValid := false;
                       Verify.invalidReason := VStr "Bad signature" |};
       headers := [] |}.
Proof.
  intros verdict P request.
  apply (verify_delegate_invalid P request 0 0 "vara-testnet"
           (Fixture.payment "exact" "vara-testnet" "native" Fixture.signed) verdict).
  - simpl. do 4 right. left. reflexivity.
  - reflexivity.
  - reflexivity.
Defined.

(** X18. A verification delegate that throws is answered 500 with the
    fault's message (its name when the message is empty). *)
Theorem verify_delegate_fault (P : Platform) (req : Error + value) (t0 t1 : Z)
    (a : api P) (payload : value) (e : Error) :
  In (EvVerifyWithApi a payload) (fst (Verify.POST P req t0 t1)) ->
  verifyWithApi P a payload = inl e ->
  snd (Verify.POST P req t0 t1)
  = {| status := 500;
       json_body :=
         {| Verify.isValid := false;
            Verify.invalidReason :=
              VStr (if String.eqb (message e) EmptyString then name e else message e) |};
       headers := [] |}.
Proof.
  intros Hin He.
  destruct (verify_delegate_inv P req t0 t1 a payload Hin)
    as (body & header & text & amount & balance & _ & _ & _ & _ & _ & _ & _ & ->).
  rewrite He. unfold verify_verdict, Verify.POST_catch, NextResponse_json,
    str_or, Error_toString.
  destruct (String.eqb (message e) EmptyString) eqn:Hm; [|reflexivity].
  apply String.eqb_eq in Hm. rewrite Hm.
  destruct (String.eqb (name e) EmptyString) eqn:Hn; [|reflexivity].
  apply String.eqb_eq in Hn. now rewrite Hn.
Qed.

Lemma verify_delegate_fault_witness :
  let P := Fixture.platform 2000000000000 (inl (mkError "RpcError" EmptyString))
             Fixture.submitted in
  let request := Fixture.request (VNum 1) (VStr "good") Fixture.requirements in
  snd (Verify.POST P request 0 0)
  = {| status := 500;
       json_body := {| Verify.isValid := false;
                       Verify.invalidReason := VStr "RpcError" |};
       headers := [] |}.
Proof.
  intros P request.
  apply (verify_delegate_fault P request 0 0 "vara-testnet"
           (Fixture.payment "exact" "vara-testnet" "native" Fixture.signed)
           (mkError "RpcError" EmptyString)).
  - simpl. do 4 right. left. reflexivity.
  - reflexivity.
Defined.

(** X19. Whenever verify calls its delegate it has made exactly five calls,
    in this order: the API handle for the requested network, the base64
    decoding of the header, the JSON parse of the decoded text, the
    balance query for [payload.transaction.address] and the payload's
    asset, and the delegate, on that handle and that parsed payload. *)
Theorem verify_call_sequence (P : Platform) (req : Error + value) (t0 t1 : Z)
    (a : api P) (payload : value) :
  In (EvVerifyWithApi a payload) (fst (Verify.POST P req t0 t1)) ->
  exists body header text,
    req = inr body
    /\ prop body "paymentHeader" = VStr header
    /\ useApi P (prop (prop body "paymentRequirements") "network") = inr a
    /\ base64_utf8 P header = inr text
    /\ JSON_parse P text = inr payload
    /\ fst (Verify.POST P req t0 t1)
       = [EvUseApi (prop (prop body "paymentRequirements") "network");
          EvBase64 header; EvJsonParse text;
          EvBalanceOf a (prop (prop (prop payload "payload") "transaction") "address")
                      (prop payload "asset");
          EvVerifyWithApi a payload].
Proof.
  intros Hin.
  destruct (verify_delegate_inv P req t0 t1 a payload Hin)
    as (body & header & text & amount & balance & Hreq & Hgate & _ & _ & _
        & (Hh & Hb & Hj) & Htrace & _).
  exists body, header, text.
  destruct Hgate as ((_ & Hu & _) & _).
  repeat split; assumption.
Qed.

Lemma verify_call_sequence_witness :
  let request := Fixture.request (VNum 1) (VStr "good") Fixture.requirements in
  let payload := Fixture.payment "exact" "vara-testnet" "native" Fixture.signed in
  exists body header text,
    request = inr body
    /\ prop body "paymentHeader" = VStr header
    /\ useApi Fixture.rich (prop (prop body "paymentRequirements") "network")
       = inr "vara-testnet"
    /\ base64_utf8 Fixture.rich header = inr text
    /\ JSON_parse Fixture.rich text = inr payload
    /\ fst (Verify.POST Fixture.rich request 0 0)
       = [EvUseApi (prop (prop body "paymentRequirements") "network");
          EvBase64 header; EvJsonParse text;
          EvBalanceOf "vara-testnet"
            (prop (prop (prop payload "payload") "transaction") "address")
            (prop payload "asset");
          EvVerifyWithApi "vara-testnet" payload].
Proof.
  intros request payload.
  apply (verify_call_sequence Fixture.rich request 0 0 "vara-testnet" payload).
  simpl. do 4 right. left. reflexivity.
Defined.

(** X20. Verify answers [isValid: true] only when every check was made and
    passed: the request passed the request gates and decoded, scheme,
    network and asset agree, the balance is at least the amount, the
    signature and the transaction are present, and the delegate found
    the payload valid. *)
Theorem verify_accepts_only_checked (P : Platform) (req : Error + value)
    (t0 t1 : Z) :
  Verify.isValid (json_body (snd (Verify.POST P req t0 t1))) = true ->
  exists body a payload amount balance r,
    req = inr body
    /\ reaches_balance_gate P body a payload amount balance
    /\ amount <= balance
    /\ truthy (prop (prop payload "payload") "signature") = true
    /\ truthy (prop (prop payload "payload") "transaction") = true
    /\ verifyWithApi P a payload = inr r
    /\ vr_isValid r = true
    /\ status (snd (Verify.POST P req t0 t1)) = 200.
Proof.
  intros Hv.
  destruct (verify_accepted_called P req t0 t1 Hv) as (a & payload & Hin).
  destruct (verify_delegate_inv P req t0 t1 a payload Hin)
    as (body & header & text & amount & balance & Hreq & Hgate & Hle & Hs & Ht
        & _ & _ & Hsnd).
  rewrite Hsnd in Hv |- *. unfold verify_verdict in *.
  destruct (verifyWithApi P a payload) as [e | r] eqn:Hr; [discriminate Hv|].
  destruct (vr_isValid r) eqn:Hval; [|discriminate Hv].
  exists body, a, payload, amount, balance, r.
  repeat (split; [assumption|]). reflexivity.
Qed.

Lemma verify_accepts_only_checked_witness :
  let request := Fixture.request (VNum 1) (VStr "good") Fixture.requirements in
  exists body a payload amount balance r,
    request = inr body
    /\ reaches_balance_gate Fixture.rich body a payload amount balance
    /\ amount <= balance
    /\ truthy (prop (prop payload "payload") "signature") = true
    /\ truthy (prop (prop payload "payload") "transaction") = true
    /\ verifyWithApi Fixture.rich a payload = inr r
    /\ vr_isValid r = true
    /\ status (snd (Verify.POST Fixture.rich request 0 0)) = 200.
Proof.
  intros request.
  apply (verify_accepts_only_checked Fixture.rich request 0 0).
  reflexivity.
Defined.

(** X21. A failure the settlement delegate returns is forwarded as it is:
    status 200, [success: false], the delegate's own [message] as
    [error], whatever that text is, and no timing header. *)
Theorem settle_delegate_failure_forwarded (P : Platform) (req : Error + value)
    (t0 t1 : Z) (a : api P) (payload : value) (options : SettleOptions)
    (r : SettleResult) :
  In (EvSettleWithApi a payload options) (fst (Settle.POST P req t0 t1)) ->
  settleWithApi P a payload options = inr r ->
  sr_success r = false ->
  snd (Settle.POST P req t0 t1)
  = {| status := 200;
       json_body := {| Settle.success := false; Settle.error := sr_message r;
                       Settle.txHash := VNull; Settle.networkId := VNull |};
       headers := [] |}.
Proof.
  intros Hin Hr Hs.
  destruct (settle_delegate_inv P req t0 t1 a payload options Hin)
    as (body & header & text & _ & _ & _ & _ & _ & _ & _ & _ & _ & ->).
  rewrite Hr. unfold settle_verdict. now rewrite Hs.
Qed.

Lemma settle_delegate_failure_forwarded_witness :
  let refused := {| sr_success := false; sr_txHash := VUndefined;
                    sr_message := VStr "Inability to pay some fees" |} in
  let P := Fixture.platform 0 Fixture.valid (inr refused) in
  let request := Fixture.request (VNum 1) (VStr "good") Fixture.requirements in
  snd (Settle.POST P request 0 0)
  = {| status := 200;
       json_body := {| Settle.success := false;
                       Settle.error := VStr "Inability to pay some fees";
                       Settle.txHash := VNull; Settle.networkId := VNull |};
       headers := [] |}.
Proof.
  intros refused P request.
  apply (settle_delegate_failure_forwarded P request 0 0 "vara-testnet"
           (Fixture.payment "exact" "vara-testnet" "native" Fixture.signed)
           Settle.settleOptions refused).
  - simpl. do 3 right. left. reflexivity.
  - reflexivity.
  - reflexivity.
Defined.

(** X22. A settlement delegate that throws an error without a duplicate
    marker is answered 500 with the fault's message (its name when the
    message is empty) and [txHash], [networkId] null. *)
Theorem settle_delegate_fault (P : Platform) (req : Error + value) (t0 t1 : Z)
    (a : api P) (payload : value) (options : SettleOptions) (e : Error) :
  In (EvSettleWithApi a payload options) (fst (Settle.POST P req t0 t1)) ->
  settleWithApi P a payload options = inl e ->
  Settle.is_duplicate (message e) = false ->
  snd (Settle.POST P req t0 t1)
  = {| status := 500;
       json_body :=
         {| Settle.success := false;
            Settle.error :=
              VStr (if String.eqb (message e) EmptyString then name e else message e);
            Settle.txHash := VNull; Settle.networkId := VNull |};
       headers := [] |}.
Proof.
  intros Hin He Hd.
  destruct (settle_delegate_inv P req t0 t1 a payload options Hin)
    as (body & header & text & _ & _ & _ & _ & _ & _ & _ & _ & _ & ->).
  rewrite He. unfold settle_verdict, Settle.POST_catch. rewrite Hd.
  unfold NextResponse_json, Settle.failure, str_or, Error_toString.
  destruct (String.eqb (message e) EmptyString) eqn:Hm; [|reflexivity].
  apply String.eqb_eq in Hm. rewrite Hm.
  destruct (String.eqb (name e) EmptyString) eqn:Hn; [|reflexivity].
  apply String.eqb_eq in Hn. now rewrite Hn.
Qed.

Lemma settle_delegate_fault_witness :
  let P := Fixture.platform 0 Fixture.valid
             (inl (mkError "Error" "1010: Invalid Transaction")) in
  let request := Fixture.request (VNum 1) (VStr "good") Fixture.requirements in
  snd (Settle.POST P request 0 0)
  = {| status := 500;
       json_body := {| Settle.success := false;
                       Settle.error := VStr "1010: Invalid Transaction";
                       Settle.txHash := VNull; Settle.networkId := VNull |};
       headers := [] |}.
Proof.
  intros P request.
  apply (settle_delegate_fault P request 0 0 "vara-testnet"
           (Fixture.payment "exact" "vara-testnet" "native" Fixture.signed)
           Settle.settleOptions (mkError "Error" "1010: Invalid Transaction")).
  - simpl. do 3 right. left. reflexivity.
  - reflexivity.
  - reflexivity.
Defined.

(** X23. Whenever settle calls its delegate it does so with
    [waitForFinalization: false], after exactly three other calls: the
    API handle for the requested network, the base64 decoding of the
    header and the JSON parse of the decoded text; the delegate gets
    that handle and that parsed payload. *)
Theorem settle_call_sequence (P : Platform) (req : Error + value) (t0 t1 : Z)
    (a : api P) (payload : value) (options : SettleOptions) :
  In (EvSettleWithApi a payload options) (fst (Settle.POST P req t0 t1)) ->
  waitForFinalization options = false
  /\ exists body header text,
       req = inr body
       /\ prop body "paymentHeader" = VStr header
       /\ useApi P (prop (prop body "paymentRequirements") "network") = inr a
       /\ base64_utf8 P header = inr text
       /\ JSON_parse P text = inr payload
       /\ fst (Settle.POST P req t0 t1)
          = [EvUseApi (prop (prop body "paymentRequirements") "network");
             EvBase64 header; EvJsonParse text;
             EvSettleWithApi a payload options].
Proof.
  intros Hin.
  destruct (settle_delegate_inv P req t0 t1 a payload options Hin)
    as (body & header & text & Hreq & Hopt & Hwf & _ & _ & _ & _
        & (Hh & Hb & Hj) & Htrace & _).
  split; [now rewrite Hopt|].
  exists body, header, text.
  destruct Hwf as (_ & Hu & _).
  repeat split; assumption.
Qed.

Lemma settle_call_sequence_witness :
  let request := Fixture.request (VNum 1) (VStr "good") Fixture.requirements in
  let payload := Fixture.payment "exact" "vara-testnet" "native" Fixture.signed in
  List.length (fst (Settle.POST Fixture.rich request 0 0)) = 4%nat.
Proof.
  intros request payload.
  destruct (settle_call_sequence Fixture.rich request 0 0 "vara-testnet" payload
              Settle.settleOptions)
    as (_ & body & header & text & _ & _ & _ & _ & _ & ->).
  - simpl. do 3 right. left. reflexivity.
  - reflexivity.
Defined.

(** X24. Settle answers [success: true] only when the request passed the
    request gates and decoded, scheme and network agree, the signature
    and the transaction are present, and the delegate reported success.
    Asset and balance are not among the conditions. *)
Theorem settle_succeeds_only_checked (P : Platform) (req : Error + value)
    (t0 t1 : Z) :
  Settle.success (json_body (snd (Settle.POST P req t0 t1))) = true ->
  exists body a payload r,
    req = inr body
    /\ decodes_to P body a payload
    /\ agrees body payload "scheme"
    /\ agrees body payload "network"
    /\ truthy (prop (prop payload "payload") "signature") = true
    /\ truthy (prop (prop payload "payload") "transaction") = true
    /\ settleWithApi P a payload {| waitForFinalization := false |} = inr r
    /\ sr_success r = true
    /\ status (snd (Settle.POST P req t0 t1)) = 200.
Proof.
  intros Hv.
  destruct (settle_succeeded_called P req t0 t1 Hv) as (a & payload & options & Hin).
  destruct (settle_delegate_inv P req t0 t1 a payload options Hin)
    as (body & header & text & Hreq & Hopt & Hwf & Hs & Hn & Hsig & Htx
        & _ & _ & Hsnd).
  subst options. rewrite Hsnd in Hv |- *. unfold settle_verdict in *.
  destruct (settleWithApi P a payload _) as [e | r] eqn:Hr.
  - unfold Settle.POST_catch in Hv.
    destruct (Settle.is_duplicate (message e)); discriminate Hv.
  - destruct (sr_success r) eqn:Hok; [|discriminate Hv].
    destruct (to_string (sr_txHash r)) as [e | shown].
    + unfold Settle.POST_catch in Hv.
      destruct (Settle.is_duplicate (message e)); discriminate Hv.
    + exists body, a, payload, r.
      repeat (split; [assumption|]). reflexivity.
Qed.

Lemma settle_succeeds_only_checked_witness :
  let request := Fixture.request (VNum 1) (VStr "good") Fixture.requirements in
  exists body a payload r,
    request = inr body
    /\ decodes_to Fixture.rich body a payload
    /\ agrees body payload "scheme"
    /\ agrees body payload "network"
    /\ truthy (prop (prop payload "payload") "signature") = true
    /\ truthy (prop (prop payload "payload") "transaction") = true
    /\ settleWithApi Fixture.rich a payload {| waitForFinalization := false |} = inr r
    /\ sr_success r = true
    /\ status (snd (Settle.POST Fixture.rich request 0 0)) = 200.
Proof.
  intros request.
  apply (settle_succeeds_only_checked Fixture.rich request 0 0).
  reflexivity.
Defined.

(* ================================================================== *)
(** ** Further properties: calls never made, status codes, duplicates *)
(* ================================================================== *)

(** X25. Verify never submits a settlement; settle never queries a balance
    and never calls the verification delegate. *)
Theorem calls_never_made (P : Platform) (req : Error + value) (t0 t1 : Z) :
  existsb is_settle_call (fst (Verify.POST P req t0 t1)) = false
  /\ existsb is_balance_query (fst (Settle.POST P req t0 t1)) = false
  /\ existsb is_verify_call (fst (Settle.POST P req t0 t1)) = false.
Proof.
  split; [|split].
  - unfold Verify.POST, Verify.POST_try. flow; reflexivity.
  - unfold Settle.POST, Settle.POST_try. flow; reflexivity.
  - unfold Settle.POST, Settle.POST_try. flow; reflexivity.
Qed.

(** X26. Verify answers with status 200, 400 or 500 only: 400 is the
    missing-fields response, 500 is the outer catch with [isValid:
    false], and every response that is neither has status 200. *)
Theorem verify_status_codes (P : Platform) (req : Error + value) (t0 t1 : Z) :
  let response := snd (Verify.POST P req t0 t1) in
  status response = 200
  \/ response = missing_fields_verify
  \/ (exists e, response = Verify.POST_catch e) /\ status response = 500.
Proof.
  intros response. subst response.
  unfold Verify.POST, Verify.POST_try. flow;
    first [ left; reflexivity
          | right; left; reflexivity
          | right; right; split; [eexists; reflexivity | reflexivity] ].
Qed.

(** X27. Settle answers with status 200, 400, 409 or 500 only: 400 is the
    missing-fields response, 409 and 500 come from the outer catch and
    carry [success: false], and every other response has status 200. *)
Theorem settle_status_codes (P : Platform) (req : Error + value) (t0 t1 : Z) :
  let response := snd (Settle.POST P req t0 t1) in
  status response = 200
  \/ response = missing_fields_settle
  \/ (exists e, response = Settle.POST_catch e)
     /\ (status response = 409 \/ status response = 500)
     /\ Settle.success (json_body response) = false.
Proof.
  intros response. subst response.
  unfold Settle.POST, Settle.POST_try. flow;
    first [ left; reflexivity
          | right; left; reflexivity
          | right; right; split; [eexists; reflexivity |];
            unfold Settle.POST_catch;
            match goal with
            | |- context [Settle.is_duplicate ?m] => destruct (Settle.is_duplicate m)
            end; split; auto ].
Qed.

Lemma prefix_spec (p s : string) :
  String.prefix p s = true <-> exists post, s = p ++ post.
Proof.
  revert s. induction p as [|c p IH]; intros s; simpl.
  - split; [intros _; now exists s | intros _; now destruct s].
  - destruct s as [|d s]; [split; [discriminate | intros (post & H); discriminate H]|].
    simpl. destruct (Ascii.ascii_dec c d) as [E | Hne]; [subst d|].
    + rewrite IH. split; intros (post & H); exists post; congruence.
    + split; [discriminate | intros (post & H); congruence].
Qed.

Lemma str_includes_spec (needle s : string) :
  str_includes needle s = true <-> exists pre post, s = pre ++ needle ++ post.
Proof.
  induction s as [|c s IH].
  - cbn [str_includes]. rewrite orb_false_r, prefix_spec. split.
    + intros (post & H). now exists EmptyString, post.
    + intros (pre & post & H). destruct pre; [now exists post | discriminate H].
  - cbn [str_includes]. rewrite orb_true_iff, prefix_spec, IH. split.
    + intros [(post & H) | (pre & post & H)].
      * now exists EmptyString, post.
      * exists (String c pre), post. simpl. now rewrite H.
    + intros (pre & post & H). destruct pre as [|d pre].
      * left. now exists post.
      * right. exists pre, post. simpl in H. congruence.
Qed.

(** X28. The settle catch answers 409 "Transaction already used" exactly
    when the fault's message contains one of the three markers
    anywhere in it, and 500 with the fault's own text otherwise. *)
Theorem duplicate_detection (e : Error) :
  ((exists marker pre post,
       In marker duplicate_markers /\ message e = pre ++ marker ++ post) ->
   Settle.POST_catch e
   = {| status := 409;
        json_body := {| Settle.success := false;
                        Settle.error := VStr "Transaction already used";
                        Settle.txHash := VNull; Settle.networkId := VNull |};
        headers := [] |})
  /\ ((forall marker pre post,
          In marker duplicate_markers -> message e <> pre ++ marker ++ post) ->
      Settle.POST_catch e
      = {| status := 500;
           json_body := {| Settle.success := false;
                           Settle.error :=
                             VStr (str_or (message e) (Error_toString e));
                           Settle.txHash := VNull; Settle.networkId := VNull |};
           headers := [] |}).
Proof.
  unfold Settle.POST_catch, Settle.is_duplicate. split.
  - intros (marker & pre & post & Hin & Hm).
    assert (Hs : str_includes marker (message e) = true)
      by (apply str_includes_spec; eauto).
    simpl in Hin. destruct Hin as [<- | [<- | [<- | []]]]; rewrite Hs;
      rewrite ?orb_true_r; reflexivity.
  - intros Hnone.
    assert (Hs : forall marker, In marker duplicate_markers ->
                                str_includes marker (message e) = false).
    { intros marker Hin. destruct (str_includes marker (message e)) eqn:E; auto.
      apply str_includes_spec in E. destruct E as (pre & post & E).
      now destruct (Hnone marker pre post Hin). }
    rewrite !Hs by (simpl; auto). reflexivity.
Qed.

Lemma duplicate_detection_witness :
  Settle.POST_catch
    (mkError "Error" "Priority is too low: the transaction was already submitted.")
  = {| status := 409;
       json_body := {| Settle.success := false;
                       Settle.error := VStr "Transaction already used";
                       Settle.txHash := VNull; Settle.networkId := VNull |};
       headers := [] |}.
Proof.
  apply (proj1 (duplicate_detection
                  (mkError "Error"
                     "Priority is too low: the transaction was already submitted."))).
  exists "already submitted", "Priority is too low: the transaction was ", ".".
  split; [simpl; auto | reflexivity].
Defined.

(* ================================================================== *)
(** ** Further properties: bodies and fields that are not there *)
(* ================================================================== *)

(** X2. With a supported version and [paymentRequirements] neither [null]
    nor [undefined], a falsy [paymentHeader] (missing, [null], empty,
    [0], [false]) or falsy requirements ([0], [false], the empty
    string) give the 400 "Missing paymentHeader or paymentRequirements"
    on both endpoints, with no call made. *)
Theorem falsy_fields_are_400 (P : Platform) (body : value) (t0 t1 : Z) :
  let reqs := prop body "paymentRequirements" in
  nullish body = false ->
  nullish reqs = false ->
  prop body "x402Version" = VNum (X402_VERSION P) ->
  truthy (prop body "paymentHeader") = false \/ truthy reqs = false ->
  Verify.POST P (inr body) t0 t1 = ([], missing_fields_verify)
  /\ Settle.POST P (inr body) t0 t1 = ([], missing_fields_settle).
Proof.
  intros reqs Hb Hr Hv Hf. subst reqs.
  apply required_fields_gate; auto.
  destruct Hf as [-> | ->]; [reflexivity | apply andb_false_r].
Qed.

Lemma falsy_fields_are_400_witness :
  let body := VObj [("x402Version", VNum 1);
                    ("paymentRequirements", Fixture.requirements)] in
  Verify.POST Fixture.rich (inr body) 0 0 = ([], missing_fields_verify)
  /\ Settle.POST Fixture.rich (inr body) 0 0 = ([], missing_fields_settle).
Proof.
  intros body.
  apply (falsy_fields_are_400 Fixture.rich body 0 0); try reflexivity.
  left. reflexivity.
Defined.

(** X8. A JSON body that is not an object ([null], a number, a string, a
    boolean, an array) is answered through the outer catch with status
    500 on both endpoints, without any call: destructuring [null]
    faults, and on the others the fields the handler destructures are
    not there and the request-body log faults on [paymentRequirements]. *)
Theorem non_object_body_faults (P : Platform) (body : value) (t0 t1 : Z) :
  (forall fields, body <> VObj fields) ->
  (fst (Verify.POST P (inr body) t0 t1) = []
   /\ status (snd (Verify.POST P (inr body) t0 t1)) = 500)
  /\ (fst (Settle.POST P (inr body) t0 t1) = []
      /\ status (snd (Settle.POST P (inr body) t0 t1)) = 500).
Proof.
  intros Hobj.
  destruct body; try (repeat split; reflexivity).
  now destruct (Hobj fields).
Qed.

Lemma non_object_body_faults_witness :
  status (snd (Verify.POST Fixture.rich (inr (VArr [])) 0 0)) = 500
  /\ status (snd (Settle.POST Fixture.rich (inr (VArr [])) 0 0)) = 500.
Proof.
  assert (Hobj : forall fields, VArr [] <> VObj fields)
    by (intros fields; discriminate).
  pose proof (non_object_body_faults Fixture.rich (VArr []) 0 0 Hobj)
    as ((_ & Hv) & (_ & Hs)).
  split; assumption.
Defined.

(** X5. Neither handler calls a collaborator for a request that does not
    pass the request gates: a non-empty trace means the version is the
    supported one, header and requirements are present, the scheme is
    the supported one and the network is a valid Vara network. *)
Theorem chain_untouched_unless_gates_pass (P : Platform) (req : Error + value)
    (t0 t1 : Z) :
  fst (Verify.POST P req t0 t1) <> [] \/ fst (Settle.POST P req t0 t1) <> [] ->
  exists body, req = inr body /\ passes_request_gates P body.
Proof.
  intros [Hv | Hs]; [revert Hv | revert Hs];
    unfold Verify.POST, Verify.POST_try, Settle.POST, Settle.POST_try; flow;
    intros Hne; try (now destruct Hne); gate_facts;
    eexists; (split; [reflexivity|]);
    unfold passes_request_gates; repeat split; assumption.
Qed.

Lemma chain_untouched_unless_gates_pass_witness :
  let request := Fixture.request (VNum 1) (VStr "%%%") Fixture.requirements in
  exists body, request = inr body /\ passes_request_gates Fixture.rich body.
Proof.
  intros request.
  apply (chain_untouched_unless_gates_pass Fixture.rich request 0 0).
  left. discriminate.
Defined.


(* ================================================================== *)
(** ** Further properties: values a message cannot show *)
(* ================================================================== *)

(** X29. When the decoded payload's [scheme] differs from the required
    one and cannot be converted to a string (an object carrying its own
    [toString] entry), building the mismatch message throws: both
    endpoints answer through their outer catch with the conversion's
    error, and no delegate is called. *)
Theorem unprintable_mismatch_faults (P : Platform) (body : value) (a : api P)
    (payload : value) (e : Error) (t0 t1 : Z) :
  decodes_to P body a payload ->
  differs body payload "scheme" ->
  to_string (prop payload "scheme") = inl e ->
  (snd (Verify.POST P (inr body) t0 t1) = Verify.POST_catch e
   /\ no_delegate_call (fst (Verify.POST P (inr body) t0 t1)) = true)
  /\ (snd (Settle.POST P (inr body) t0 t1) = Settle.POST_catch e
      /\ no_delegate_call (fst (Settle.POST P (inr body) t0 t1)) = true).
Proof.
  intros Hwf Hd He.
  assert (Hshown : to_string (prop (prop body "paymentRequirements") "scheme")
                   = inr (X402_SCHEME P)).
  { destruct Hwf as ((_ & _ & _ & -> & _) & _). reflexivity. }
  open_request Hwf.
  unfold differs, Verify.POST, Verify.POST_try, Settle.POST, Settle.POST_try in *.
  repeat split; flow; reflexivity.
Qed.

Lemma unprintable_mismatch_faults_witness :
  let body := VObj [("x402Version", VNum 1); ("paymentHeader", VStr "odd-scheme");
                    ("paymentRequirements", Fixture.requirements)] in
  snd (Verify.POST Fixture.rich (inr body) 0 0)
  = {| status := 500;
       json_body :=
         {| Verify.isValid := false;
            Verify.invalidReason := VStr "Cannot convert object to primitive value" |};
       headers := [] |}.
Proof.
  intros body.
  set (payload := VObj [("x402Version", VNum 1);
                        ("scheme", VObj [("toString", VNum 0)]);
                        ("network", VStr "vara-testnet"); ("asset", VStr "native");
                        ("payload", Fixture.signed)]).
  assert (Hwf : decodes_to Fixture.rich body "vara-testnet" payload).
  { repeat split; try reflexivity.
    exists "odd-scheme", "odd-scheme". repeat split; reflexivity. }
  exact (proj1 (proj1 (unprintable_mismatch_faults Fixture.rich body "vara-testnet"
                         payload (TypeError "Cannot convert object to primitive value")
                         0 0 Hwf eq_refl eq_refl))).
Defined.
